(** * smart-textbook-scanner: schema, persistence gateway and action handlers

    A shallow embedding of [db/tables.ts] and [src/actions/index.ts].

    - Integers that pass [z.number().int()] are [Z]; strings are [string];
      a column or input field that may be absent ([optional], [undefined],
      SQL NULL) is an [option].
    - A table is a finite map from its primary key [id] to the remaining
      columns of the row. The store enforces the [references] declared in
      [db/tables.ts]: a write that would leave a reference unresolved is
      refused and the call ends in an error.
    - A handler is a computation over the store that either returns a value
      or throws an [ActionError]; the store it leaves behind is kept in both
      cases, so that "writes nothing" is a statement to be proved.
    - [new Date()] is the reading [now] of a clock handed to the handler;
      the readings taken while one row is built are one reading. *)

From stdpp Require Import gmap strings list fin_maps.
From Stdlib Require Import ZArith Lia.

Local Open Scope string_scope.
Local Open Scope Z_scope.

(** ** Values *)

(** [column.json] / [z.any()]: an opaque structured value; the handlers never
    look inside it. *)
#[local] Unset Elimination Schemes.
Inductive Json : Type :=
  | JNull
  | JBool (b : bool)
  | JNum (n : Z)
  | JStr (s : string)
  | JArr (items : list Json)
  | JObj (fields : list (string * Json)).
#[local] Set Elimination Schemes.

(** [Date]: milliseconds since the epoch. *)
Definition Date : Type := Z.

Inductive SourceType := pdf | image_set | source_other.
Inductive HighlightType := key_point | question | definition | formula | highlight_other.
Inductive JobType := ocr | highlight_extraction | full_pipeline | job_other.
Inductive Status := pending | completed | failed.

Definition SourceType_name (x : SourceType) : string :=
  match x with pdf => "pdf" | image_set => "image_set" | source_other => "other" end.
Definition HighlightType_name (x : HighlightType) : string :=
  match x with
  | key_point => "key_point" | question => "question" | definition => "definition"
  | formula => "formula" | highlight_other => "other"
  end.
Definition JobType_name (x : JobType) : string :=
  match x with
  | ocr => "ocr" | highlight_extraction => "highlight_extraction"
  | full_pipeline => "full_pipeline" | job_other => "other"
  end.
Definition Status_name (x : Status) : string :=
  match x with pending => "pending" | completed => "completed" | failed => "failed" end.

#[global] Instance Status_eq_dec : EqDecision Status.
Proof. solve_decision. Defined.

(** ** JavaScript operators used by the handlers *)

(** [a ?? b] *)
Definition nullish {A} (a : option A) (b : A) : A :=
  match a with Some x => x | None => b end.
Infix "??" := nullish (at level 45, left associativity).

(** Truthiness of a possibly absent number, as in [if (input.id)] and
    [job.documentId ? .. : ..]: [undefined], [null] and [0] are falsy. *)
Definition truthy (x : option Z) : bool :=
  match x with
  | Some n => negb (Z.eqb n 0)
  | None => false
  end.

(** Truthiness of a possibly absent string: the empty string is falsy. *)
Definition truthy_str (x : option string) : bool :=
  match x with
  | Some s => negb (String.eqb s "")
  | None => false
  end.

(** Whether an optional value is present. *)
Definition present {A} (x : option A) : bool :=
  match x with Some _ => true | None => false end.

(** The value of a nullable column after a patch: the supplied value if
    there is one, the stored value otherwise. *)
Definition overwrite {A} (supplied stored : option A) : option A :=
  match supplied with
  | Some v => Some v
  | None => stored
  end.

(** [a === b] where [a] is read from a nullable column ([null] when absent)
    and [b] from an optional input field ([undefined] when absent): two
    numbers are compared, [null] and [undefined] equal nothing here. *)
Definition strict_eq (a b : option Z) : bool :=
  match a, b with
  | Some x, Some y => Z.eqb x y
  | _, _ => false
  end.

(** ** db/tables.ts: the schema declarations *)

Module Schema.

Inductive ColumnType := number | text | json | date.
Inductive Default := DText (s : string) | DNumber (n : Z) | NOW.

Record Column := {
  name : string;
  type : ColumnType;
  primaryKey : bool;
  autoIncrement : bool;
  optional : bool;
  enum : list string;
  default : option Default;
  references : option (string * string);
}.

Definition column (n : string) (t : ColumnType) : Column :=
  {| name := n; type := t; primaryKey := false; autoIncrement := false;
     optional := false; enum := []; default := None; references := None |}.
Definition key (c : Column) : Column :=
  {| name := name c; type := type c; primaryKey := true; autoIncrement := true;
     optional := optional c; enum := enum c; default := default c;
     references := references c |}.
Definition opt (c : Column) : Column :=
  {| name := name c; type := type c; primaryKey := primaryKey c;
     autoIncrement := autoIncrement c; optional := true; enum := enum c;
     default := default c; references := references c |}.
Definition with_enum (e : list string) (c : Column) : Column :=
  {| name := name c; type := type c; primaryKey := primaryKey c;
     autoIncrement := autoIncrement c; optional := optional c; enum := e;
     default := default c; references := references c |}.
Definition with_default (d : Default) (c : Column) : Column :=
  {| name := name c; type := type c; primaryKey := primaryKey c;
     autoIncrement := autoIncrement c; optional := optional c; enum := enum c;
     default := Some d; references := references c |}.
Definition refers (t col : string) (c : Column) : Column :=
  {| name := name c; type := type c; primaryKey := primaryKey c;
     autoIncrement := autoIncrement c; optional := optional c; enum := enum c;
     default := default c; references := Some (t, col) |}.

Definition TextbookDocuments : list Column :=
  [ key (column "id" number);
    column "ownerId" text;
    column "title" text;
    opt (column "description" text);
    opt (column "subject" text);
    opt (column "gradeLevel" text);
    opt (column "board" text);
    with_default (DText "image_set")
      (with_enum ["pdf"; "image_set"; "other"] (column "sourceType" text));
    opt (column "sourceMeta" json);
    with_default NOW (column "createdAt" date);
    with_default NOW (column "updatedAt" date) ].

Definition TextbookPages : list Column :=
  [ key (column "id" number);
    refers "TextbookDocuments" "id" (column "documentId" number);
    with_default (DNumber 1) (column "pageNumber" number);
    opt (column "imageUrl" text);
    opt (column "ocrText" text);
    opt (column "ocrBlocks" json);
    with_default NOW (column "createdAt" date);
    with_default NOW (column "updatedAt" date) ].

Definition TextbookHighlights : list Column :=
  [ key (column "id" number);
    refers "TextbookDocuments" "id" (column "documentId" number);
    opt (refers "TextbookPages" "id" (column "pageId" number));
    with_default (DText "key_point")
      (with_enum ["key_point"; "question"; "definition"; "formula"; "other"]
         (column "highlightType" text));
    column "content" text;
    opt (column "meta" json);
    with_default NOW (column "createdAt" date) ].

Definition ScanJobs : list Column :=
  [ key (column "id" number);
    opt (refers "TextbookDocuments" "id" (column "documentId" number));
    opt (refers "TextbookPages" "id" (column "pageId" number));
    opt (column "userId" text);
    with_default (DText "full_pipeline")
      (with_enum ["ocr"; "highlight_extraction"; "full_pipeline"; "other"]
         (column "jobType" text));
    opt (column "input" json);
    opt (column "output" json);
    with_default (DText "completed")
      (with_enum ["pending"; "completed"; "failed"] (column "status" text));
    with_default NOW (column "createdAt" date) ].

(** The declaration of column [n] in a table. *)
Definition find (table : list Column) (n : string) : option Column :=
  List.find (fun c => String.eqb (name c) n) table.

(** The declared default of column [n], if the column exists and has one. *)
Definition default_of (table : list Column) (n : string) : option Default :=
  match find table n with
  | Some c => default c
  | None => None
  end.

End Schema.

(** ** Rows: the columns of each table other than the primary key *)

Record Document := {
  ownerId : string;
  title : string;
  description : option string;
  subject : option string;
  gradeLevel : option string;
  board : option string;
  sourceType : SourceType;
  sourceMeta : option Json;
  doc_createdAt : Date;
  doc_updatedAt : Date;
}.

Record Page := {
  page_documentId : Z;
  pageNumber : Z;
  imageUrl : option string;
  ocrText : option string;
  ocrBlocks : option Json;
  page_createdAt : Date;
  page_updatedAt : Date;
}.

Record Highlight := {
  hl_documentId : Z;
  hl_pageId : option Z;
  highlightType : HighlightType;
  content : string;
  meta : option Json;
  hl_createdAt : Date;
}.

Record ScanJob := {
  job_documentId : option Z;
  job_pageId : option Z;
  userId : option string;
  jobType : JobType;
  job_input : option Json;
  job_output : option Json;
  status : Status;
  job_createdAt : Date;
}.

(** The database: one table per [defineTable]. *)
Record Store := {
  documents : gmap Z Document;
  pages : gmap Z Page;
  highlights : gmap Z Highlight;
  jobs : gmap Z ScanJob;
}.

Definition empty_store : Store :=
  {| documents := ∅; pages := ∅; highlights := ∅; jobs := ∅ |}.

(** ** Handlers as computations over the store *)

(** [UNAUTHORIZED] and [NOT_FOUND] are thrown by the handlers;
    [INTERNAL_SERVER_ERROR] is the code under which an exception that is not
    an [ActionError], such as a failure of the store, reaches the caller. *)
Inductive ErrorCode := UNAUTHORIZED | NOT_FOUND | INTERNAL_SERVER_ERROR.

(** [ActionError] *)
Record ActionError := { code : ErrorCode; message : string }.

Inductive Outcome (A : Type) : Type :=
  | Return (a : A)
  | Throw (e : ActionError).
Arguments Return {A} a.
Arguments Throw {A} e.

(** An [async] handler: it runs from a store and ends by returning or by
    throwing, leaving a store behind in both cases. *)
Definition Action (A : Type) : Type := Store → Outcome A * Store.

#[global] Instance Action_ret : MRet Action :=
  λ A a s, (Return a, s).

#[global] Instance Action_bind : MBind Action :=
  λ A B k m s,
    match m s with
    | (Return a, s') => k a s'
    | (Throw e, s') => (Throw e, s')
    end.

(** [throw new ActionError({ code, message })] *)
Definition throw {A} (c : ErrorCode) (msg : string) : Action A :=
  λ s, (Throw {| code := c; message := msg |}, s).

(** ** The persistence gateway

    The query builder behind [astro:db] ([db], [eq], [and]) and the store it
    talks to are external collaborators and not part of the sources. They are
    modelled as a store with insert, select, update and delete under a
    filter. A [where] clause is a predicate on the key and the row;
    [returning] yields the rows written or removed. The store enforces the
    [references] that [db/tables.ts] declares: an insert or an update whose
    assigned reference names no stored row, and a delete of a row that another
    row references, is refused; the statement writes nothing and the call
    ends in an error. *)

(** Modelled from the spec: the failure of the absent store on a statement
    that violates a declared reference, as it reaches the caller. The text is
    the store's; the properties below use the code only. *)
Definition foreign_key_failed : ActionError :=
  {| code := INTERNAL_SERVER_ERROR; message := "FOREIGN KEY constraint failed" |}.

(** The largest key in use, 0 for an empty table. *)
Definition max_key {R} (t : gmap Z R) : Z :=
  map_fold (λ k _ acc, Z.max k acc) 0 t.

(** Modelled from the spec: [autoIncrement] of the absent gateway, the key
    given to the next inserted row; one more than the largest key in use. *)
Definition next_id {R} (t : gmap Z R) : Z := 1 + max_key t.

(** The rows of [t] that satisfy a [where] clause. *)
Definition matching {R} (where_ : Z → R → bool) (t : gmap Z R) : gmap Z R :=
  filter (λ kr, Is_true (where_ kr.1 kr.2)) t.

(** Some row of [t] satisfies the clause. *)
Definition any_row {R} (where_ : Z → R → bool) (t : gmap Z R) : bool :=
  match map_to_list (matching where_ t) with
  | [] => false
  | _ :: _ => true
  end.

(** A nullable reference resolves in [t]: it is NULL or names a row of [t]. *)
Definition resolves {R} (t : gmap Z R) (ref : option Z) : bool :=
  match ref with
  | Some k => present (t !! k)
  | None => true
  end.

(** A nullable reference names the row [k]. *)
Definition names (k : Z) (ref : option Z) : bool :=
  match ref with
  | Some x => Z.eqb x k
  | None => false
  end.

(** A table of the schema, as a view of the store, with the references
    declared for it in [db/tables.ts]: [references_resolve s r] says that
    every reference of the row [r] names a stored row, [referenced s k] that
    some stored row references the row [k] of this table. *)
Record Table (R : Type) := {
  rows : Store → gmap Z R;
  with_rows : gmap Z R → Store → Store;
  references_resolve : Store → R → bool;
  referenced : Store → Z → bool;
}.
Arguments rows {R} _ _.
Arguments with_rows {R} _ _ _.
Arguments references_resolve {R} _ _ _.
Arguments referenced {R} _ _ _.

Definition TextbookDocuments : Table Document :=
  {| rows := documents;
     with_rows := λ t s, {| documents := t; pages := pages s;
                            highlights := highlights s; jobs := jobs s |};
     references_resolve := λ _ _, true;
     referenced := λ s k,
       any_row (λ _ p, Z.eqb (page_documentId p) k) (pages s)
       || any_row (λ _ h, Z.eqb (hl_documentId h) k) (highlights s)
       || any_row (λ _ j, names k (job_documentId j)) (jobs s) |}.
Definition TextbookPages : Table Page :=
  {| rows := pages;
     with_rows := λ t s, {| documents := documents s; pages := t;
                            highlights := highlights s; jobs := jobs s |};
     references_resolve := λ s p, present (documents s !! page_documentId p);
     referenced := λ s k,
       any_row (λ _ h, names k (hl_pageId h)) (highlights s)
       || any_row (λ _ j, names k (job_pageId j)) (jobs s) |}.
Definition TextbookHighlights : Table Highlight :=
  {| rows := highlights;
     with_rows := λ t s, {| documents := documents s; pages := pages s;
                            highlights := t; jobs := jobs s |};
     references_resolve := λ s h,
       present (documents s !! hl_documentId h) && resolves (pages s) (hl_pageId h);
     referenced := λ _ _, false |}.
Definition ScanJobs : Table ScanJob :=
  {| rows := jobs;
     with_rows := λ t s, {| documents := documents s; pages := pages s;
                            highlights := highlights s; jobs := t |};
     references_resolve := λ s j,
       resolves (documents s) (job_documentId j) && resolves (pages s) (job_pageId j);
     referenced := λ _ _, false |}.

(** The object handed to [.set]: what it assigns to a row, and whether the
    references among the keys it assigns name stored rows. A key whose value
    is [undefined] is not assigned. *)
Record Patch (R : Type) := {
  assign_to : R → R;
  patch_resolves : Store → bool;
}.
Arguments assign_to {R} _ _.
Arguments patch_resolves {R} _ _.

(** Modelled from the spec: [db.select().from(T).where(w)] of the absent
    gateway; the rows that pass the clause, in the order of the store. *)
Definition db_select {R} (T : Table R) (where_ : Z → R → bool) : Action (list (Z * R)) :=
  λ s, (Return (map_to_list (matching where_ (rows T s))), s).

(** Modelled from the spec: [db.insert(T).values(v).returning()] of the
    absent gateway; one row is added under the next key and returned, a key
    of [v] that is [undefined] being stored as NULL. The insert is refused
    when a reference of the row names no stored row. *)
Definition db_insert {R} (T : Table R) (values : R) : Action (list (Z * R)) :=
  λ s, if references_resolve T s values then
         let k := next_id (rows T s) in
         (Return [(k, values)], with_rows T (<[k := values]> (rows T s)) s)
       else (Throw foreign_key_failed, s).

(** Modelled from the spec: [db.update(T).set(obj).where(w).returning()] of
    the absent gateway; the keys of [obj] that are not [undefined] are
    assigned in each row that passes the clause, and those rows are returned
    as written. The update is refused when it would change a row and a
    reference it assigns names no stored row. *)
Definition db_update {R} (T : Table R) (obj : Patch R) (where_ : Z → R → bool)
  : Action (list (Z * R)) :=
  λ s, let t := rows T s in
       if any_row where_ t && negb (patch_resolves obj s)
       then (Throw foreign_key_failed, s)
       else (Return (map_to_list (assign_to obj <$> matching where_ t)),
             with_rows T
               (map_imap (λ k r, Some (if where_ k r then assign_to obj r else r)) t) s).

(** Modelled from the spec: [db.delete(T).where(w).returning()] of the
    absent gateway; the rows that pass the clause are removed and returned.
    The delete is refused when a row it would remove is referenced. *)
Definition db_delete {R} (T : Table R) (where_ : Z → R → bool) : Action (list (Z * R)) :=
  λ s, let t := rows T s in
       if any_row (λ k r, where_ k r && referenced T s k) t
       then (Throw foreign_key_failed, s)
       else (Return (map_to_list (matching where_ t)),
             with_rows T (matching (λ k r, negb (where_ k r)) t) s).

(** [.limit(n)] *)
Definition limit {A} (n : nat) (l : list A) : list A := take n l.

(** [const [x] = l]: the first element, [undefined] when there is none. *)
Definition first {A} (l : list A) : option A := head l.

(** ** src/actions/index.ts *)

Record User := { user_id : string }.
Record Locals := { user : option User }.
Record Context := { locals : option Locals }.

(** A request of a signed-in user. *)
Definition signed_in (u : User) : Context :=
  {| locals := Some {| user := Some u |} |}.

Definition requireUser (context : Context) : Action User :=
  match locals context ≫= user with
  | None => throw UNAUTHORIZED "You must be signed in to perform this action."
  | Some u => mret u
  end.

(** [and(eq(T.id, id), eq(T.ownerId, uid))] on documents *)
Definition owned_by (id : Z) (uid : string) (k : Z) (d : Document) : bool :=
  Z.eqb k id && String.eqb (ownerId d) uid.

(** [and(eq(TextbookPages.id, id), eq(TextbookPages.documentId, documentId))] *)
Definition page_in (id documentId : Z) (k : Z) (p : Page) : bool :=
  Z.eqb k id && Z.eqb (page_documentId p) documentId.

(** [and(eq(TextbookHighlights.id, id),
         eq(TextbookHighlights.documentId, documentId))] *)
Definition highlight_in (id documentId : Z) (k : Z) (h : Highlight) : bool :=
  Z.eqb k id && Z.eqb (hl_documentId h) documentId.

(** [eq(TextbookDocuments.ownerId, uid)] *)
Definition owner_is (uid : string) (_ : Z) (d : Document) : bool :=
  String.eqb (ownerId d) uid.

(** [eq(ScanJobs.userId, uid)]; a NULL [userId] equals nothing. *)
Definition job_of (uid : string) (_ : Z) (j : ScanJob) : bool :=
  match userId j with
  | Some x => String.eqb x uid
  | None => false
  end.

(** [eq(TextbookPages.documentId, id)] *)
Definition page_of (id : Z) (_ : Z) (p : Page) : bool :=
  Z.eqb (page_documentId p) id.

(** [eq(T.id, id)] *)
Definition with_id {R} (id : Z) (k : Z) (_ : R) : bool := Z.eqb k id.

Module CreateDocumentInput.
Record t := {
  title : string;
  description : option string;
  subject : option string;
  gradeLevel : option string;
  board : option string;
  sourceType : option SourceType;
  sourceMeta : option Json;
}.
(** [z.object({ title: z.string().min(1), .. })] *)
Definition valid (i : t) : bool := negb (String.eqb (title i) "").
End CreateDocumentInput.

Definition createDocument (input : CreateDocumentInput.t) (context : Context) (now : Date)
  : Action (option (Z * Document)) :=
  user ← requireUser context;
  returning ← db_insert TextbookDocuments
    {| ownerId := user_id user;
       title := CreateDocumentInput.title input;
       description := CreateDocumentInput.description input;
       subject := CreateDocumentInput.subject input;
       gradeLevel := CreateDocumentInput.gradeLevel input;
       board := CreateDocumentInput.board input;
       sourceType := CreateDocumentInput.sourceType input ?? image_set;
       sourceMeta := CreateDocumentInput.sourceMeta input;
       doc_createdAt := now;
       doc_updatedAt := now |};
  mret (first returning).

Module UpdateDocumentInput.
Record t := {
  id : Z;
  title : option string;
  description : option string;
  subject : option string;
  gradeLevel : option string;
  board : option string;
  sourceType : option SourceType;
  sourceMeta : option Json;
}.
(** [title: z.string().min(1).optional()] *)
Definition valid (i : t) : bool :=
  match title i with
  | Some s => negb (String.eqb s "")
  | None => true
  end.
End UpdateDocumentInput.

(** One key of the object handed to [.set] on documents, with its value. *)
Inductive Assignment :=
  | set_title (v : string)
  | set_description (v : string)
  | set_subject (v : string)
  | set_gradeLevel (v : string)
  | set_board (v : string)
  | set_sourceType (v : SourceType)
  | set_sourceMeta (v : Json)
  | set_updatedAt (v : Date).

Definition assign (d : Document) (a : Assignment) : Document :=
  match a with
  | set_title v =>
      {| ownerId := ownerId d; title := v; description := description d;
         subject := subject d; gradeLevel := gradeLevel d; board := board d;
         sourceType := sourceType d; sourceMeta := sourceMeta d;
         doc_createdAt := doc_createdAt d; doc_updatedAt := doc_updatedAt d |}
  | set_description v =>
      {| ownerId := ownerId d; title := title d; description := Some v;
         subject := subject d; gradeLevel := gradeLevel d; board := board d;
         sourceType := sourceType d; sourceMeta := sourceMeta d;
         doc_createdAt := doc_createdAt d; doc_updatedAt := doc_updatedAt d |}
  | set_subject v =>
      {| ownerId := ownerId d; title := title d; description := description d;
         subject := Some v; gradeLevel := gradeLevel d; board := board d;
         sourceType := sourceType d; sourceMeta := sourceMeta d;
         doc_createdAt := doc_createdAt d; doc_updatedAt := doc_updatedAt d |}
  | set_gradeLevel v =>
      {| ownerId := ownerId d; title := title d; description := description d;
         subject := subject d; gradeLevel := Some v; board := board d;
         sourceType := sourceType d; sourceMeta := sourceMeta d;
         doc_createdAt := doc_createdAt d; doc_updatedAt := doc_updatedAt d |}
  | set_board v =>
      {| ownerId := ownerId d; title := title d; description := description d;
         subject := subject d; gradeLevel := gradeLevel d; board := Some v;
         sourceType := sourceType d; sourceMeta := sourceMeta d;
         doc_createdAt := doc_createdAt d; doc_updatedAt := doc_updatedAt d |}
  | set_sourceType v =>
      {| ownerId := ownerId d; title := title d; description := description d;
         subject := subject d; gradeLevel := gradeLevel d; board := board d;
         sourceType := v; sourceMeta := sourceMeta d;
         doc_createdAt := doc_createdAt d; doc_updatedAt := doc_updatedAt d |}
  | set_sourceMeta v =>
      {| ownerId := ownerId d; title := title d; description := description d;
         subject := subject d; gradeLevel := gradeLevel d; board := board d;
         sourceType := sourceType d; sourceMeta := Some v;
         doc_createdAt := doc_createdAt d; doc_updatedAt := doc_updatedAt d |}
  | set_updatedAt v =>
      {| ownerId := ownerId d; title := title d; description := description d;
         subject := subject d; gradeLevel := gradeLevel d; board := board d;
         sourceType := sourceType d; sourceMeta := sourceMeta d;
         doc_createdAt := doc_createdAt d; doc_updatedAt := v |}
  end.

(** [.set(obj)]: the keys of [obj] are assigned in order. *)
Definition assign_all (obj : list Assignment) (d : Document) : Document :=
  foldl assign d obj.

(** The set object of [updateDocument]; a document references nothing. *)
Definition document_patch (obj : list Assignment) : Patch Document :=
  {| assign_to := assign_all obj; patch_resolves := λ _, true |}.

(** [.set(values)] on a page: the keys of [values] that are not [undefined]
    are assigned. [documentId], [pageNumber] and the timestamps always have a
    value. *)
Definition set_page (values : Page) (p : Page) : Page :=
  {| page_documentId := page_documentId values;
     pageNumber := pageNumber values;
     imageUrl := overwrite (imageUrl values) (imageUrl p);
     ocrText := overwrite (ocrText values) (ocrText p);
     ocrBlocks := overwrite (ocrBlocks values) (ocrBlocks p);
     page_createdAt := page_createdAt values;
     page_updatedAt := page_updatedAt values |}.

Definition page_patch (values : Page) : Patch Page :=
  {| assign_to := set_page values;
     patch_resolves := λ s, references_resolve TextbookPages s values |}.

(** [.set(values)] on a highlight: the keys of [values] that are not
    [undefined] are assigned. [documentId], [highlightType], [content] and
    [createdAt] always have a value. *)
Definition set_highlight (values : Highlight) (h : Highlight) : Highlight :=
  {| hl_documentId := hl_documentId values;
     hl_pageId := overwrite (hl_pageId values) (hl_pageId h);
     highlightType := highlightType values;
     content := content values;
     meta := overwrite (meta values) (meta h);
     hl_createdAt := hl_createdAt values |}.

Definition highlight_patch (values : Highlight) : Patch Highlight :=
  {| assign_to := set_highlight values;
     patch_resolves := λ s, references_resolve TextbookHighlights s values |}.

(** [Object.entries(rest)] for [const { id, ...rest } = input]: one entry per
    key, [None] where the value is [undefined]. *)
Definition entries (input : UpdateDocumentInput.t) : list (option Assignment) :=
  [ set_title <$> UpdateDocumentInput.title input;
    set_description <$> UpdateDocumentInput.description input;
    set_subject <$> UpdateDocumentInput.subject input;
    set_gradeLevel <$> UpdateDocumentInput.gradeLevel input;
    set_board <$> UpdateDocumentInput.board input;
    set_sourceType <$> UpdateDocumentInput.sourceType input;
    set_sourceMeta <$> UpdateDocumentInput.sourceMeta input ].

(** The loop that fills [updateData] with the entries whose value is not
    [undefined]. *)
Definition updateData (input : UpdateDocumentInput.t) : list Assignment :=
  omap (λ e, e) (entries input).

Definition updateDocument (input : UpdateDocumentInput.t) (context : Context) (now : Date)
  : Action (option (Z * Document)) :=
  user ← requireUser context;
  let id := UpdateDocumentInput.id input in
  selected ← db_select TextbookDocuments (owned_by id (user_id user));
  match first (limit 1 selected) with
  | None => throw NOT_FOUND "Document not found."
  | Some existing =>
      if Nat.eqb (length (updateData input)) 0 then mret (Some existing)
      else
        returning ← db_update TextbookDocuments
          (document_patch (updateData input ++ [set_updatedAt now]))
          (owned_by id (user_id user));
        mret (first returning)
  end.

Definition listDocuments (context : Context) : Action (list (Z * Document)) :=
  user ← requireUser context;
  db_select TextbookDocuments (owner_is (user_id user)).

Definition getDocumentWithPages (id : Z) (context : Context)
  : Action ((Z * Document) * list (Z * Page)) :=
  user ← requireUser context;
  selected ← db_select TextbookDocuments (owned_by id (user_id user));
  match first (limit 1 selected) with
  | None => throw NOT_FOUND "Document not found."
  | Some document =>
      pages ← db_select TextbookPages (page_of id);
      mret (document, pages)
  end.

Module SavePageInput.
Record t := {
  id : option Z;
  documentId : Z;
  pageNumber : option Z;
  imageUrl : option string;
  ocrText : option string;
  ocrBlocks : option Json;
}.
(** [pageNumber: z.number().int().positive().optional()],
    [imageUrl: z.string().url().optional()]; the URL syntax is the
    validator's, taken as [is_url]. *)
Definition valid (is_url : string → bool) (i : t) : bool :=
  match pageNumber i with Some n => Z.ltb 0 n | None => true end
  && match imageUrl i with Some u => is_url u | None => true end.
End SavePageInput.

Definition savePage (input : SavePageInput.t) (context : Context) (now : Date)
  : Action (option (Z * Page)) :=
  user ← requireUser context;
  selected ← db_select TextbookDocuments
    (owned_by (SavePageInput.documentId input) (user_id user));
  match first (limit 1 selected) with
  | None => throw NOT_FOUND "Document not found."
  | Some document =>
      let baseValues :=
        {| page_documentId := SavePageInput.documentId input;
           pageNumber := SavePageInput.pageNumber input ?? 1;
           imageUrl := SavePageInput.imageUrl input;
           ocrText := SavePageInput.ocrText input;
           ocrBlocks := SavePageInput.ocrBlocks input;
           page_createdAt := now;
           page_updatedAt := now |} in
      if truthy (SavePageInput.id input) then
        (* in this branch [input.id] is a number *)
        let id := SavePageInput.id input ?? 0 in
        selected ← db_select TextbookPages (with_id id);
        match first (limit 1 selected) with
        | None => throw NOT_FOUND "Page not found."
        | Some existing =>
            if negb (Z.eqb (page_documentId existing.2) (SavePageInput.documentId input))
            then throw NOT_FOUND "Page not found."
            else
              returning ← db_update TextbookPages (page_patch baseValues) (with_id id);
              mret (first returning)
        end
      else
        returning ← db_insert TextbookPages baseValues;
        mret (first returning)
  end.

Module DeleteInput.
Record t := { id : Z; documentId : Z }.
End DeleteInput.

Definition deletePage (input : DeleteInput.t) (context : Context)
  : Action (Z * Page) :=
  user ← requireUser context;
  selected ← db_select TextbookDocuments
    (owned_by (DeleteInput.documentId input) (user_id user));
  match first (limit 1 selected) with
  | None => throw NOT_FOUND "Document not found."
  | Some document =>
      returning ← db_delete TextbookPages
        (page_in (DeleteInput.id input) (DeleteInput.documentId input));
      match first returning with
      | None => throw NOT_FOUND "Page not found."
      | Some deleted => mret deleted
      end
  end.

Module SaveHighlightInput.
Record t := {
  id : option Z;
  documentId : Z;
  pageId : option Z;
  highlightType : option HighlightType;
  content : string;
  meta : option Json;
}.
(** [content: z.string().min(1)] *)
Definition valid (i : t) : bool := negb (String.eqb (content i) "").
End SaveHighlightInput.

Definition saveHighlight (input : SaveHighlightInput.t) (context : Context) (now : Date)
  : Action (option (Z * Highlight)) :=
  user ← requireUser context;
  selected ← db_select TextbookDocuments
    (owned_by (SaveHighlightInput.documentId input) (user_id user));
  match first (limit 1 selected) with
  | None => throw NOT_FOUND "Document not found."
  | Some document =>
      _ ← (if truthy (SaveHighlightInput.pageId input) then
             (* in this branch [input.pageId] is a number *)
             let pageId := SaveHighlightInput.pageId input ?? 0 in
             selected ← db_select TextbookPages
               (page_in pageId (SaveHighlightInput.documentId input));
             match first (limit 1 selected) with
             | None => throw NOT_FOUND "Page not found."
             | Some page => mret ()
             end
           else mret ());
      let baseValues :=
        {| hl_documentId := SaveHighlightInput.documentId input;
           hl_pageId := SaveHighlightInput.pageId input;
           highlightType := SaveHighlightInput.highlightType input ?? key_point;
           content := SaveHighlightInput.content input;
           meta := SaveHighlightInput.meta input;
           hl_createdAt := now |} in
      if truthy (SaveHighlightInput.id input) then
        (* in this branch [input.id] is a number *)
        let id := SaveHighlightInput.id input ?? 0 in
        selected ← db_select TextbookHighlights (with_id id);
        match first (limit 1 selected) with
        | None => throw NOT_FOUND "Highlight not found."
        | Some existing =>
            if negb (Z.eqb (hl_documentId existing.2) (SaveHighlightInput.documentId input))
            then throw NOT_FOUND "Highlight not found."
            else
              returning ← db_update TextbookHighlights (highlight_patch baseValues)
                             (with_id id);
              mret (first returning)
        end
      else
        returning ← db_insert TextbookHighlights baseValues;
        mret (first returning)
  end.

Definition deleteHighlight (input : DeleteInput.t) (context : Context)
  : Action (Z * Highlight) :=
  user ← requireUser context;
  selected ← db_select TextbookDocuments
    (owned_by (DeleteInput.documentId input) (user_id user));
  match first (limit 1 selected) with
  | None => throw NOT_FOUND "Document not found."
  | Some document =>
      returning ← db_delete TextbookHighlights
        (highlight_in (DeleteInput.id input) (DeleteInput.documentId input));
      match first returning with
      | None => throw NOT_FOUND "Highlight not found."
      | Some deleted => mret deleted
      end
  end.

Module CreateScanJobInput.
Record t := {
  documentId : option Z;
  pageId : option Z;
  jobType : option JobType;
  input : option Json;
  output : option Json;
  status : option Status;
}.
End CreateScanJobInput.

Definition createScanJob (input : CreateScanJobInput.t) (context : Context) (now : Date)
  : Action (option (Z * ScanJob)) :=
  user ← requireUser context;
  _ ← (if truthy (CreateScanJobInput.documentId input) then
         (* in this branch [input.documentId] is a number *)
         let documentId := CreateScanJobInput.documentId input ?? 0 in
         selected ← db_select TextbookDocuments (owned_by documentId (user_id user));
         match first (limit 1 selected) with
         | None => throw NOT_FOUND "Document not found."
         | Some doc => mret ()
         end
       else mret ());
  _ ← (if truthy (CreateScanJobInput.pageId input) then
         (* in this branch [input.pageId] is a number *)
         let pageId := CreateScanJobInput.pageId input ?? 0 in
         selected ← db_select TextbookPages (with_id pageId);
         match first (limit 1 selected) with
         | None => throw NOT_FOUND "Page not found."
         | Some page => mret ()
         end
       else mret ());
  returning ← db_insert ScanJobs
    {| job_documentId := CreateScanJobInput.documentId input;
       job_pageId := CreateScanJobInput.pageId input;
       userId := Some (user_id user);
       jobType := CreateScanJobInput.jobType input ?? full_pipeline;
       job_input := CreateScanJobInput.input input;
       job_output := CreateScanJobInput.output input;
       status := CreateScanJobInput.status input ?? pending;
       job_createdAt := now |};
  mret (first returning).

Module ListScanJobsInput.
Record t := {
  documentId : option Z;
  pageId : option Z;
  status : option Status;
}.
End ListScanJobsInput.

(** [allowedDocIds.has(job.documentId)] *)
Definition has (ids : gset Z) (x : option Z) : bool :=
  match x with
  | Some d => bool_decide (d ∈ ids)
  | None => false
  end.

(** [job.status === input.status] *)
Definition status_eq (a : Status) (b : option Status) : bool :=
  match b with
  | Some st => bool_decide (a = st)
  | None => false
  end.

(** The predicate handed to [jobs.filter]. *)
Definition job_passes (allowedDocIds : gset Z) (input : option ListScanJobsInput.t)
    (job : ScanJob) : bool :=
  let matchesDoc :=
    if truthy (job_documentId job) then has allowedDocIds (job_documentId job) else true in
  let matchesPage :=
    if truthy (input ≫= ListScanJobsInput.pageId)
    then strict_eq (job_pageId job) (input ≫= ListScanJobsInput.pageId) else true in
  let matchesStatus :=
    if truthy_str (Status_name <$> (input ≫= ListScanJobsInput.status))
    then status_eq (status job) (input ≫= ListScanJobsInput.status) else true in
  let matchesRequestedDoc :=
    if truthy (input ≫= ListScanJobsInput.documentId)
    then strict_eq (job_documentId job) (input ≫= ListScanJobsInput.documentId) else true in
  matchesDoc && matchesPage && matchesStatus && matchesRequestedDoc.

Definition listScanJobs (input : option ListScanJobsInput.t) (context : Context)
  : Action (list (Z * ScanJob)) :=
  user ← requireUser context;
  documents ← db_select TextbookDocuments (owner_is (user_id user));
  let allowedDocIds : gset Z := list_to_set (fst <$> documents) in
  jobs ← db_select ScanJobs (job_of (user_id user));
  let filtered := List.filter (λ job, job_passes allowedDocIds input job.2) jobs in
  mret filtered.

(** ** Notions used to state the properties *)

(** A [where] clause that contains [eq(T.id, id)]. *)
Definition pinned {R} (w : Z → R → bool) (id : Z) : Prop :=
  ∀ k r, w k r = true → k = id.

(** The row a pinned clause selects, if any: the row stored under the key,
    when it passes the clause. *)
Definition found {R} (w : Z → R → bool) (id : Z) (t : gmap Z R) : option (Z * R) :=
  match t !! id with
  | Some r => if w id r then Some (id, r) else None
  | None => None
  end.

(** The store a handler leaves behind. *)
Definition after {A} (a : Action A) (s : Store) : Store := (a s).2.

(** The store after the rows of one table are replaced. *)
Definition with_pages (t : gmap Z Page) (s : Store) : Store :=
  {| documents := documents s; pages := t; highlights := highlights s; jobs := jobs s |}.
Definition with_highlights (t : gmap Z Highlight) (s : Store) : Store :=
  {| documents := documents s; pages := pages s; highlights := t; jobs := jobs s |}.
Definition with_jobs (t : gmap Z ScanJob) (s : Store) : Store :=
  {| documents := documents s; pages := pages s; highlights := highlights s; jobs := t |}.

(** The [NOT_FOUND] errors of the handlers. *)
Definition document_not_found : ActionError :=
  {| code := NOT_FOUND; message := "Document not found." |}.
Definition page_not_found : ActionError :=
  {| code := NOT_FOUND; message := "Page not found." |}.
Definition highlight_not_found : ActionError :=
  {| code := NOT_FOUND; message := "Highlight not found." |}.

(** An [updateDocument] input that holds the id and nothing else. *)
Definition only_id (id : Z) : UpdateDocumentInput.t :=
  {| UpdateDocumentInput.id := id;
     UpdateDocumentInput.title := None;
     UpdateDocumentInput.description := None;
     UpdateDocumentInput.subject := None;
     UpdateDocumentInput.gradeLevel := None;
     UpdateDocumentInput.board := None;
     UpdateDocumentInput.sourceType := None;
     UpdateDocumentInput.sourceMeta := None |}.

(** At least one field other than the id is present in the input. *)
Definition field_supplied (input : UpdateDocumentInput.t) : bool :=
  present (UpdateDocumentInput.title input)
  || present (UpdateDocumentInput.description input)
  || present (UpdateDocumentInput.subject input)
  || present (UpdateDocumentInput.gradeLevel input)
  || present (UpdateDocumentInput.board input)
  || present (UpdateDocumentInput.sourceType input)
  || present (UpdateDocumentInput.sourceMeta input).

(** The row [savePage] builds from its input ([baseValues]). *)
Definition page_values (input : SavePageInput.t) (now : Date) : Page :=
  {| page_documentId := SavePageInput.documentId input;
     pageNumber := SavePageInput.pageNumber input ?? 1;
     imageUrl := SavePageInput.imageUrl input;
     ocrText := SavePageInput.ocrText input;
     ocrBlocks := SavePageInput.ocrBlocks input;
     page_createdAt := now;
     page_updatedAt := now |}.

(** The same [savePage] input with no [id] key. *)
Definition without_id (input : SavePageInput.t) : SavePageInput.t :=
  {| SavePageInput.id := None;
     SavePageInput.documentId := SavePageInput.documentId input;
     SavePageInput.pageNumber := SavePageInput.pageNumber input;
     SavePageInput.imageUrl := SavePageInput.imageUrl input;
     SavePageInput.ocrText := SavePageInput.ocrText input;
     SavePageInput.ocrBlocks := SavePageInput.ocrBlocks input |}.

(** The row [saveHighlight] builds from its input ([baseValues]). *)
Definition highlight_values (input : SaveHighlightInput.t) (now : Date) : Highlight :=
  {| hl_documentId := SaveHighlightInput.documentId input;
     hl_pageId := SaveHighlightInput.pageId input;
     highlightType := SaveHighlightInput.highlightType input ?? key_point;
     content := SaveHighlightInput.content input;
     meta := SaveHighlightInput.meta input;
     hl_createdAt := now |}.

(** The row [createScanJob] inserts for user [uid]. *)
Definition job_values (input : CreateScanJobInput.t) (uid : string) (now : Date) : ScanJob :=
  {| job_documentId := CreateScanJobInput.documentId input;
     job_pageId := CreateScanJobInput.pageId input;
     userId := Some uid;
     jobType := CreateScanJobInput.jobType input ?? full_pipeline;
     job_input := CreateScanJobInput.input input;
     job_output := CreateScanJobInput.output input;
     status := CreateScanJobInput.status input ?? pending;
     job_createdAt := now |}.

(** ** The exposed operations and the highlight invariant *)

(** One call of an action of [server], with its input. *)
Inductive Call :=
  | CreateDocument (input : CreateDocumentInput.t)
  | UpdateDocument (input : UpdateDocumentInput.t)
  | ListDocuments
  | GetDocumentWithPages (id : Z)
  | SavePage (input : SavePageInput.t)
  | DeletePage (input : DeleteInput.t)
  | SaveHighlight (input : SaveHighlightInput.t)
  | DeleteHighlight (input : DeleteInput.t)
  | CreateScanJob (input : CreateScanJobInput.t)
  | ListScanJobs (input : option ListScanJobsInput.t).

(** The store after a call, whether it returned or threw. *)
Definition exec (c : Call) (context : Context) (now : Date) (s : Store) : Store :=
  match c with
  | CreateDocument input => after (createDocument input context now) s
  | UpdateDocument input => after (updateDocument input context now) s
  | ListDocuments => after (listDocuments context) s
  | GetDocumentWithPages id => after (getDocumentWithPages id context) s
  | SavePage input => after (savePage input context now) s
  | DeletePage input => after (deletePage input context) s
  | SaveHighlight input => after (saveHighlight input context now) s
  | DeleteHighlight input => after (deleteHighlight input context) s
  | CreateScanJob input => after (createScanJob input context now) s
  | ListScanJobs input => after (listScanJobs input context) s
  end.

(** A sequence of calls, each with its caller and the time it is made. *)
Definition exec_all (calls : list (Call * Context * Date)) (s : Store) : Store :=
  foldl (λ s c, exec c.1.1 c.1.2 c.2 s) s calls.

(** A highlight whose [pageId] is set references a stored page of the
    highlight's own document. *)
Definition page_link_ok (s : Store) (h : Highlight) : Prop :=
  ∀ p, hl_pageId h = Some p →
       ∃ pg, pages s !! p = Some pg ∧ page_documentId pg = hl_documentId h.

(** The invariant: every stored highlight is linked that way. *)
Definition highlights_linked (s : Store) : Prop :=
  ∀ k h, highlights s !! k = Some h → page_link_ok s h.

(** ** Worked examples: users, inputs and stores *)

Definition alice : User := {| user_id := "alice" |}.
Definition bob : User := {| user_id := "bob" |}.

Definition chapter2 : CreateDocumentInput.t :=
  {| CreateDocumentInput.title := "Chapter 2";
     CreateDocumentInput.description := None;
     CreateDocumentInput.subject := None;
     CreateDocumentInput.gradeLevel := None;
     CreateDocumentInput.board := None;
     CreateDocumentInput.sourceType := None;
     CreateDocumentInput.sourceMeta := None |}.

Definition newton_page (id : option Z) (documentId : Z) : SavePageInput.t :=
  {| SavePageInput.id := id;
     SavePageInput.documentId := documentId;
     SavePageInput.pageNumber := None;
     SavePageInput.imageUrl := None;
     SavePageInput.ocrText := Some "Laws of motion";
     SavePageInput.ocrBlocks := None |}.

(** A rescan of page 1 that supplies a page number and nothing else. *)
Definition renumber (documentId : Z) : SavePageInput.t :=
  {| SavePageInput.id := Some 1;
     SavePageInput.documentId := documentId;
     SavePageInput.pageNumber := Some 7;
     SavePageInput.imageUrl := None;
     SavePageInput.ocrText := None;
     SavePageInput.ocrBlocks := None |}.

Definition retitle : UpdateDocumentInput.t :=
  {| UpdateDocumentInput.id := 1;
     UpdateDocumentInput.title := Some "Chapter 3";
     UpdateDocumentInput.description := None;
     UpdateDocumentInput.subject := None;
     UpdateDocumentInput.gradeLevel := None;
     UpdateDocumentInput.board := None;
     UpdateDocumentInput.sourceType := None;
     UpdateDocumentInput.sourceMeta := None |}.

Definition page_one : DeleteInput.t :=
  {| DeleteInput.id := 1; DeleteInput.documentId := 1 |}.

Definition fma (pageId : option Z) : SaveHighlightInput.t :=
  {| SaveHighlightInput.id := None;
     SaveHighlightInput.documentId := 1;
     SaveHighlightInput.pageId := pageId;
     SaveHighlightInput.highlightType := Some formula;
     SaveHighlightInput.content := "F=ma";
     SaveHighlightInput.meta := None |}.

Definition job_for (documentId pageId : option Z) : CreateScanJobInput.t :=
  {| CreateScanJobInput.documentId := documentId;
     CreateScanJobInput.pageId := pageId;
     CreateScanJobInput.jobType := Some ocr;
     CreateScanJobInput.input := None;
     CreateScanJobInput.output := None;
     CreateScanJobInput.status := None |}.

Definition only_pageId (pageId : Z) : ListScanJobsInput.t :=
  {| ListScanJobsInput.documentId := None;
     ListScanJobsInput.pageId := Some pageId;
     ListScanJobsInput.status := None |}.

(** Alice creates a document (id 1) and scans one page of it (id 1). *)
Definition one_page_store : Store :=
  after (savePage (newton_page None 1) (signed_in alice) 101)
    (after (createDocument chapter2 (signed_in alice) 100) empty_store).

(** The two rows of [one_page_store]. *)
Definition chapter2_document : Document :=
  {| ownerId := "alice"; title := "Chapter 2"; description := None; subject := None;
     gradeLevel := None; board := None; sourceType := image_set; sourceMeta := None;
     doc_createdAt := 100; doc_updatedAt := 100 |}.
Definition newton_row : Page := page_values (newton_page None 1) 101.

(** Alice also owns a second document (id 2). *)
Definition two_documents_store : Store :=
  after (createDocument chapter2 (signed_in alice) 104) one_page_store.

(** Alice records a job on document 1 and page 1 (id 1); her second call,
    with [documentId] 0, is refused by the store. *)
Definition two_jobs_store : Store :=
  after (createScanJob (job_for (Some 0) None) (signed_in alice) 103)
    (after (createScanJob (job_for (Some 1) (Some 1)) (signed_in alice) 102)
       one_page_store).

(** Alice creates a document, scans a page and highlights a formula on that
    page. *)
Definition highlight_a_page : list (Call * Context * Date) :=
  [ (CreateDocument chapter2, signed_in alice, 100);
    (SavePage (newton_page None 1), signed_in alice, 101);
    (SaveHighlight (fma (Some 1)), signed_in alice, 102) ].

(** ** Outcomes, ownership and the changes a call can make *)

Definition with_documents (t : gmap Z Document) (s : Store) : Store :=
  {| documents := t; pages := pages s; highlights := highlights s; jobs := jobs s |}.

(** The error of [requireUser]. *)
Definition unauthorized : ActionError :=
  {| code := UNAUTHORIZED; message := "You must be signed in to perform this action." |}.

(** A request with no session user. *)
Definition anonymous : Context := {| locals := Some {| user := None |} |}.

(** The error a handler ended with, if it threw. *)
Definition error_of {A} (r : Outcome A * Store) : option ActionError :=
  match r.1 with
  | Throw e => Some e
  | Return _ => None
  end.

(** The error a call ends with, if it throws. *)
Definition thrown (c : Call) (context : Context) (now : Date) (s : Store)
  : option ActionError :=
  match c with
  | CreateDocument input => error_of (createDocument input context now s)
  | UpdateDocument input => error_of (updateDocument input context now s)
  | ListDocuments => error_of (listDocuments context s)
  | GetDocumentWithPages id => error_of (getDocumentWithPages id context s)
  | SavePage input => error_of (savePage input context now s)
  | DeletePage input => error_of (deletePage input context s)
  | SaveHighlight input => error_of (saveHighlight input context now s)
  | DeleteHighlight input => error_of (deleteHighlight input context s)
  | CreateScanJob input => error_of (createScanJob input context now s)
  | ListScanJobs input => error_of (listScanJobs input context s)
  end.

(** The document a call names as its scope: the [id] of the document
    actions, the [documentId] of the page and highlight actions. *)
Definition call_document (c : Call) : option Z :=
  match c with
  | UpdateDocument input => Some (UpdateDocumentInput.id input)
  | GetDocumentWithPages id => Some id
  | SavePage input => Some (SavePageInput.documentId input)
  | DeletePage input => Some (DeleteInput.documentId input)
  | SaveHighlight input => Some (SaveHighlightInput.documentId input)
  | DeleteHighlight input => Some (DeleteInput.documentId input)
  | _ => None
  end.

(** Document [d] is stored and its owner is [uid]. *)
Definition owns (s : Store) (uid : string) (d : Z) : bool :=
  match documents s !! d with
  | Some doc => String.eqb (ownerId doc) uid
  | None => false
  end.

(** A highlight whose [pageId] is not 0 names a stored page of its own
    document. *)
Definition linked_unless_zero (s : Store) (h : Highlight) : Prop :=
  ∀ p, hl_pageId h = Some p → p ≠ 0 →
       ∃ pg, pages s !! p = Some pg ∧ page_documentId pg = hl_documentId h.

(** The ways one call of user [uid] can change the store: not at all, or by
    one write to one table, on a row of a document of the user, that leaves
    no reference unresolved. *)
Inductive change (uid : string) (s : Store) : Store → Prop :=
  | change_none :
      change uid s s
  | document_added v :
      ownerId v = uid →
      change uid s (with_documents (<[next_id (documents s) := v]> (documents s)) s)
  | document_patched k d d' :
      documents s !! k = Some d →
      ownerId d = uid →
      ownerId d' = ownerId d →
      doc_createdAt d' = doc_createdAt d →
      change uid s (with_documents (<[k := d']> (documents s)) s)
  | page_added v :
      owns s uid (page_documentId v) = true →
      change uid s (with_pages (<[next_id (pages s) := v]> (pages s)) s)
  | page_replaced k p v :
      pages s !! k = Some p →
      page_documentId v = page_documentId p →
      owns s uid (page_documentId p) = true →
      change uid s (with_pages (<[k := v]> (pages s)) s)
  | page_deleted k p :
      pages s !! k = Some p →
      owns s uid (page_documentId p) = true →
      referenced TextbookPages s k = false →
      change uid s (with_pages (delete k (pages s)) s)
  | highlight_added v :
      owns s uid (hl_documentId v) = true →
      resolves (pages s) (hl_pageId v) = true →
      linked_unless_zero s v →
      change uid s (with_highlights (<[next_id (highlights s) := v]> (highlights s)) s)
  | highlight_replaced k h v :
      highlights s !! k = Some h →
      hl_documentId v = hl_documentId h →
      owns s uid (hl_documentId h) = true →
      hl_pageId v = hl_pageId h
      ∨ (resolves (pages s) (hl_pageId v) = true ∧ linked_unless_zero s v) →
      change uid s (with_highlights (<[k := v]> (highlights s)) s)
  | highlight_deleted k h :
      highlights s !! k = Some h →
      owns s uid (hl_documentId h) = true →
      change uid s (with_highlights (delete k (highlights s)) s)
  | job_added v :
      userId v = Some uid →
      resolves (documents s) (job_documentId v) = true →
      resolves (pages s) (job_pageId v) = true →
      change uid s (with_jobs (<[next_id (jobs s) := v]> (jobs s)) s).

(** The page lookup of [saveHighlight]: it passes when [pageId] is absent or
    0, or names a stored page of the supplied document. *)
Definition page_guard (s : Store) (input : SaveHighlightInput.t) : bool :=
  if truthy (SaveHighlightInput.pageId input) then
    match pages s !! (SaveHighlightInput.pageId input ?? 0) with
    | Some p => Z.eqb (page_documentId p) (SaveHighlightInput.documentId input)
    | None => false
    end
  else true.

(** The document lookup of [createScanJob]: it passes when [documentId] is
    absent or 0, or names a document of [uid]. *)
Definition job_document_guard (s : Store) (uid : string) (input : CreateScanJobInput.t)
  : bool :=
  if truthy (CreateScanJobInput.documentId input)
  then owns s uid (CreateScanJobInput.documentId input ?? 0)
  else true.

(** The page lookup of [createScanJob]: it passes when [pageId] is absent or
    0, or names a stored page. *)
Definition job_page_guard (s : Store) (input : CreateScanJobInput.t) : bool :=
  if truthy (CreateScanJobInput.pageId input)
  then present (pages s !! (CreateScanJobInput.pageId input ?? 0))
  else true.

(** Every row of every table has a positive id. *)
Definition ids_positive (s : Store) : Prop :=
  (∀ k, is_Some (documents s !! k) → 0 < k)
  ∧ (∀ k, is_Some (pages s !! k) → 0 < k)
  ∧ (∀ k, is_Some (highlights s !! k) → 0 < k)
  ∧ (∀ k, is_Some (jobs s !! k) → 0 < k).

(** A job that [listScanJobs] shows to user [uid] under the filter [input]:
    it is a job of the user, its [documentId] is absent, 0 or the id of a
    document of the user, and it has the value of every filter that is
    supplied and, for the numeric ones, is not 0. *)
Definition job_visible (s : Store) (uid : string) (input : option ListScanJobsInput.t)
    (j : ScanJob) : Prop :=
  userId j = Some uid
  ∧ (∀ d, job_documentId j = Some d → d ≠ 0 → owns s uid d = true)
  ∧ (∀ f, input ≫= ListScanJobsInput.pageId = Some f → f ≠ 0 → job_pageId j = Some f)
  ∧ (∀ st, input ≫= ListScanJobsInput.status = Some st → status j = st)
  ∧ (∀ f, input ≫= ListScanJobsInput.documentId = Some f → f ≠ 0 →
          job_documentId j = Some f).

Definition only_status (st : Status) : ListScanJobsInput.t :=
  {| ListScanJobsInput.documentId := None;
     ListScanJobsInput.pageId := None;
     ListScanJobsInput.status := Some st |}.

(** The [deletePage] or [deleteHighlight] input for row [id] of a document. *)
Definition delete_input (id documentId : Z) : DeleteInput.t :=
  {| DeleteInput.id := id; DeleteInput.documentId := documentId |}.

(** The references declared in [db/tables.ts] hold in the store: the
    document of every page and highlight, the page of every highlight that
    names one, and the document and the page of every job that names them,
    are stored. *)
Definition references_hold (s : Store) : Prop :=
  (∀ k p, pages s !! k = Some p → is_Some (documents s !! page_documentId p))
  ∧ (∀ k h, highlights s !! k = Some h →
            is_Some (documents s !! hl_documentId h)
            ∧ ∀ p, hl_pageId h = Some p → is_Some (pages s !! p))
  ∧ (∀ k j, jobs s !! k = Some j →
            (∀ d, job_documentId j = Some d → is_Some (documents s !! d))
            ∧ ∀ p, job_pageId j = Some p → is_Some (pages s !! p)).

(** Alice records one job, on document 1 and page 1 (id 1). *)
Definition one_job_store : Store :=
  after (createScanJob (job_for (Some 1) (Some 1)) (signed_in alice) 102) one_page_store.

(** Alice's store with a formula highlighted on page 1. *)
Definition highlighted_store : Store := exec_all highlight_a_page empty_store.

(** The stores of the program: those the actions build from the empty
    store, by any calls of any callers. *)
Definition reachable (s : Store) : Prop :=
  ∃ calls, s = exec_all calls empty_store.
(** * Properties of the gateway *)

Arguments matching : simpl never.
Arguments first : simpl never.
Arguments limit : simpl never.
Arguments next_id : simpl never.

Section gateway.
Context {R : Type}.
Implicit Types (t : gmap Z R) (w : Z → R → bool).

Lemma max_key_ge t k r : t !! k = Some r → k ≤ max_key t.
Proof.
  unfold max_key. revert k r.
  induction t as [|i x m Hi Hfold IH] using map_first_key_ind; intros k r Hk.
  - by rewrite lookup_empty in Hk.
  - rewrite map_fold_insert_first_key by done.
    destruct (decide (i = k)) as [->|Hne].
    + lia.
    + rewrite lookup_insert_ne in Hk by done. specialize (IH _ _ Hk). lia.
Qed.

Lemma max_key_nonneg t : 0 ≤ max_key t.
Proof.
  unfold max_key.
  induction t as [|i x m Hi Hfold IH] using map_first_key_ind.
  - by rewrite map_fold_empty.
  - rewrite map_fold_insert_first_key by done. lia.
Qed.

(** The keys handed out by [autoIncrement] are positive, so never 0. *)
Lemma next_id_positive t : 0 < next_id t.
Proof. pose proof (max_key_nonneg t). unfold next_id. lia. Qed.

(** An inserted row never takes the key of a stored row. *)
Lemma next_id_fresh t : t !! next_id t = None.
Proof.
  destruct (t !! next_id t) as [r|] eqn:E; [|done].
  apply max_key_ge in E. unfold next_id in E. lia.
Qed.

Lemma matching_lookup w t k r :
  matching w t !! k = Some r ↔ t !! k = Some r ∧ w k r = true.
Proof.
  unfold matching. rewrite map_lookup_filter_Some. simpl.
  by rewrite Is_true_true.
Qed.

Lemma matching_lookup_None w t k :
  matching w t !! k = None ↔ (∀ r, t !! k = Some r → w k r = false).
Proof.
  unfold matching. rewrite map_lookup_filter_None. simpl. split.
  - intros [Hn|Hf] r Hr; [congruence|].
    specialize (Hf r Hr). by destruct (w k r).
  - intros H. destruct (t !! k) as [r|] eqn:E; [right|by left].
    intros r' [= <-]. rewrite (H r); [tauto|done].
Qed.

Lemma matching_pinned w id t :
  pinned w id →
  matching w t = match found w id t with Some (k, r) => {[ k := r ]} | None => ∅ end.
Proof.
  intros Hp. apply map_eq. intros k. unfold found.
  destruct (matching w t !! k) as [r|] eqn:E.
  - apply matching_lookup in E as [Hk Hw]. assert (k = id) as -> by eauto.
    rewrite Hk, Hw. by rewrite lookup_singleton_eq.
  - destruct (t !! id) as [r|] eqn:Hid; [|by rewrite lookup_empty].
    destruct (w id r) eqn:Hw; [|by rewrite lookup_empty].
    destruct (decide (id = k)) as [->|Hne].
    + rewrite matching_lookup_None in E. rewrite (E r Hid) in Hw. done.
    + by rewrite lookup_singleton_ne.
Qed.

Lemma select_pinned w id t :
  pinned w id → map_to_list (matching w t) = option_list (found w id t).
Proof.
  intros Hp. rewrite (matching_pinned w id t Hp).
  destruct (found w id t) as [[k r]|]; simpl.
  - apply map_to_list_singleton.
  - apply map_to_list_empty.
Qed.

Lemma first_option_list {A} (o : option A) : first (option_list o) = o.
Proof. by destruct o. Qed.

Lemma first_limit_option_list {A} (o : option A) :
  first (limit 1 (option_list o)) = o.
Proof. by destruct o. Qed.

(** Rows that a pinned clause does not select are kept by an update, the
    selected row is replaced. *)
Lemma update_pinned w id t (set : R → R) :
  pinned w id →
  map_imap (λ k r, Some (if w k r then set r else r)) t
  = match found w id t with Some (k, r) => <[ k := set r ]> t | None => t end.
Proof.
  intros Hp. apply map_eq. intros k. rewrite map_lookup_imap. unfold found.
  destruct (t !! k) as [r|] eqn:E; simpl.
  - destruct (w k r) eqn:Hw.
    + assert (k = id) as -> by eauto. rewrite E, Hw. by rewrite lookup_insert_eq.
    + destruct (t !! id) as [r'|] eqn:Hid; [|by rewrite E].
      destruct (w id r') eqn:Hw'; [|by rewrite E].
      rewrite lookup_insert_ne; [by rewrite E|]. intros ->. congruence.
  - destruct (t !! id) as [r'|] eqn:Hid; [|by rewrite E].
    destruct (w id r') eqn:Hw'; [|by rewrite E].
    rewrite lookup_insert_ne; [by rewrite E|]. intros ->. congruence.
Qed.

(** A delete under a pinned clause removes the selected row and nothing
    else. *)
Lemma delete_pinned w id t :
  pinned w id →
  matching (λ k r, negb (w k r)) t
  = match found w id t with Some (k, _) => delete k t | None => t end.
Proof.
  intros Hp. apply map_eq. intros k. unfold found.
  destruct (matching (λ k r, negb (w k r)) t !! k) as [r|] eqn:E.
  - apply matching_lookup in E as [Hk Hw]. apply negb_true_iff in Hw.
    destruct (t !! id) as [r'|] eqn:Hid; [|done].
    destruct (w id r') eqn:Hw'; [|done].
    rewrite lookup_delete_ne; [done|]. intros ->. congruence.
  - rewrite matching_lookup_None in E.
    destruct (t !! id) as [r'|] eqn:Hid.
    + destruct (w id r') eqn:Hw'.
      * destruct (decide (id = k)) as [->|Hne]; [by rewrite lookup_delete_eq|].
        rewrite lookup_delete_ne by done.
        destruct (t !! k) as [r|] eqn:Hk; [|done].
        specialize (E r eq_refl). apply negb_false_iff in E.
        apply Hp in E. congruence.
      * destruct (t !! k) as [r|] eqn:Hk; [|done].
        specialize (E r eq_refl). apply negb_false_iff in E.
        pose proof (Hp _ _ E) as ->. congruence.
    + destruct (t !! k) as [r|] eqn:Hk; [|done].
      specialize (E r eq_refl). apply negb_false_iff in E.
      pose proof (Hp _ _ E) as ->. congruence.
Qed.
End gateway.

Lemma owned_by_pinned id uid : pinned (owned_by id uid) id.
Proof. intros k d H. unfold owned_by in H. apply andb_true_iff in H as [H _]. lia. Qed.

Lemma key_eq_pinned {R} id : pinned (@with_id R id) id.
Proof. intros k d H. unfold with_id in H. lia. Qed.

Section gateway_select.
Context {R : Type}.
Implicit Types (t : gmap Z R) (w : Z → R → bool).

(** [const [x] = await db.select()...where(w).limit(1)] under a pinned
    clause is a lookup at the key followed by the test of the clause. *)
Lemma select_one w id t :
  pinned w id → first (limit 1 (map_to_list (matching w t))) = found w id t.
Proof. intros Hp. by rewrite (select_pinned w id t Hp), first_limit_option_list. Qed.

Lemma returning_one w id t :
  pinned w id → first (map_to_list (matching w t)) = found w id t.
Proof. intros Hp. by rewrite (select_pinned w id t Hp), first_option_list. Qed.

Lemma returning_updated w id t (set : R → R) :
  pinned w id →
  first (map_to_list (set <$> matching w t))
  = match found w id t with Some (k, r) => Some (k, set r) | None => None end.
Proof.
  intros Hp. rewrite (matching_pinned w id t Hp).
  destruct (found w id t) as [[k r]|].
  - by rewrite map_fmap_singleton, map_to_list_singleton.
  - by rewrite fmap_empty, map_to_list_empty.
Qed.
End gateway_select.

(** The document [id] as its owner [uid] sees it. *)
Lemma found_owned id uid (t : gmap Z Document) d :
  t !! id = Some d → ownerId d = uid → found (owned_by id uid) id t = Some (id, d).
Proof.
  intros Hd <-. unfold found, owned_by. rewrite Hd.
  by rewrite Z.eqb_refl, String.eqb_refl.
Qed.

(** Unfolds the sequencing of a handler down to the gateway's maps. *)
Ltac run_action :=
  cbv beta iota zeta delta
    [mbind mret Action_bind Action_ret option_bind throw requireUser signed_in
     locals user db_select db_insert db_update db_delete rows with_rows
     references_resolve referenced assign_to patch_resolves
     document_patch page_patch highlight_patch
     TextbookDocuments TextbookPages TextbookHighlights ScanJobs].

Lemma requireUser_cases (context : Context) :
  (∃ u, requireUser context = mret u)
  ∨ requireUser context
    = throw UNAUTHORIZED "You must be signed in to perform this action.".
Proof.
  unfold requireUser. destruct (locals context ≫= user) as [u|]; [left|right]; eauto.
Qed.

Ltac select_owned :=
  rewrite (select_one _ _ _ (owned_by_pinned _ _)).


Section gateway_references.
Context {R : Type}.
Implicit Types (t : gmap Z R) (w : Z → R → bool).

Lemma any_row_spec w t :
  any_row w t = true ↔ ∃ k r, t !! k = Some r ∧ w k r = true.
Proof.
  unfold any_row. split.
  - destruct (map_to_list (matching w t)) as [|[k r] l] eqn:E; [done|]. intros _.
    exists k, r. apply matching_lookup, elem_of_map_to_list. rewrite E. left.
  - intros (k & r & Hk). apply matching_lookup, elem_of_map_to_list in Hk.
    destruct (map_to_list (matching w t)); [|done]. by apply not_elem_of_nil in Hk.
Qed.

Lemma any_row_false w t :
  any_row w t = false ↔ ∀ k r, t !! k = Some r → w k r = false.
Proof.
  split.
  - intros Hn k r Hk. destruct (w k r) eqn:Hw; [|done].
    assert (any_row w t = true) by (apply any_row_spec; eauto). congruence.
  - intros Hall. destruct (any_row w t) eqn:E; [|done].
    apply any_row_spec in E as (k & r & Hk & Hw). rewrite (Hall k r Hk) in Hw. done.
Qed.

(** Under a clause that contains [eq(T.id, id)] a row matches exactly when
    the row stored under [id] passes the clause. *)
Lemma any_row_pinned w id t : pinned w id → any_row w t = present (found w id t).
Proof.
  intros Hp. unfold any_row. rewrite (select_pinned w id t Hp).
  by destruct (found w id t).
Qed.
End gateway_references.

Lemma and_pinned {R} (w q : Z → R → bool) id :
  pinned w id → pinned (λ k r, w k r && q k r) id.
Proof. intros Hp k r H. apply andb_true_iff in H as [H _]. exact (Hp k r H). Qed.

Lemma requireUser_signed_in (u : User) : requireUser (signed_in u) = mret u.
Proof. reflexivity. Qed.

Lemma requireUser_no_user (context : Context) :
  locals context ≫= user = None →
  requireUser context
  = throw UNAUTHORIZED "You must be signed in to perform this action.".
Proof. unfold requireUser. by intros ->. Qed.

Lemma signed_in_user (u u' : User) : requireUser (signed_in u) = mret u' → u = u'.
Proof.
  intros H. apply (f_equal (λ a : Action User, a empty_store)) in H.
  by injection H.
Qed.

Lemma throws_unauthorized {A} (m : User → Action A) (context : Context) (s : Store) :
  requireUser context
  = throw UNAUTHORIZED "You must be signed in to perform this action." →
  (requireUser context ≫= m) s
  = (Throw {| code := UNAUTHORIZED;
              message := "You must be signed in to perform this action." |}, s).
Proof. intros ->. reflexivity. Qed.

Lemma with_rows_same (s : Store) :
  {| documents := documents s; pages := pages s;
     highlights := highlights s; jobs := jobs s |} = s.
Proof. by destruct s. Qed.

Lemma truthy_Some (n : Z) : n ≠ 0 → truthy (Some n) = true.
Proof. intros H. simpl. apply negb_true_iff. lia. Qed.

Lemma truthy_inv (x : option Z) : truthy x = true → ∃ n, x = Some n ∧ n ≠ 0.
Proof.
  destruct x as [n|]; [|done]. simpl. intros H%negb_true_iff. exists n. split; [done|lia].
Qed.

Lemma truthy_resolves {R} (t : gmap Z R) (x : option Z) :
  truthy x = true → resolves t x = present (t !! (x ?? 0)).
Proof. by intros (n & -> & _)%truthy_inv. Qed.

Lemma found_key {R} (t : gmap Z R) id :
  found (with_id id) id t = (λ r, (id, r)) <$> t !! id.
Proof. unfold found, with_id. destruct (t !! id); [|done]. by rewrite Z.eqb_refl. Qed.

Lemma found_page_in (t : gmap Z Page) id doc :
  found (page_in id doc) id t
  = match t !! id with
    | Some p => if Z.eqb (page_documentId p) doc then Some (id, p) else None
    | None => None
    end.
Proof.
  unfold found, page_in. destruct (t !! id) as [p|]; [|done].
  by rewrite Z.eqb_refl.
Qed.

Lemma found_highlight_in (t : gmap Z Highlight) id doc :
  found (highlight_in id doc) id t
  = match t !! id with
    | Some h => if Z.eqb (hl_documentId h) doc then Some (id, h) else None
    | None => None
    end.
Proof.
  unfold found, highlight_in. destruct (t !! id) as [h|]; [|done].
  by rewrite Z.eqb_refl.
Qed.

Lemma page_in_pinned id doc : pinned (page_in id doc) id.
Proof. intros k p H. unfold page_in in H. apply andb_true_iff in H as [H _]. lia. Qed.

Lemma highlight_in_pinned id doc : pinned (highlight_in id doc) id.
Proof. intros k h H. unfold highlight_in in H. apply andb_true_iff in H as [H _]. lia. Qed.

Lemma found_owned_by (s : Store) (uid : string) (d : Z) :
  found (owned_by d uid) d (documents s)
  = if owns s uid d then (λ doc, (d, doc)) <$> documents s !! d else None.
Proof.
  unfold found, owns, owned_by. destruct (documents s !! d) as [doc|]; [|done].
  rewrite Z.eqb_refl. simpl. by destruct (String.eqb (ownerId doc) uid).
Qed.

Lemma owns_inv (s : Store) (uid : string) (d : Z) :
  owns s uid d = true → ∃ doc, documents s !! d = Some doc ∧ ownerId doc = uid.
Proof.
  unfold owns. destruct (documents s !! d) as [doc|]; [|done].
  intros H%String.eqb_eq. eauto.
Qed.

Lemma owns_intro (s : Store) (uid : string) (d : Z) doc :
  documents s !! d = Some doc → ownerId doc = uid → owns s uid d = true.
Proof. unfold owns. intros -> <-. apply String.eqb_refl. Qed.

Lemma updateData_empty (input : UpdateDocumentInput.t) :
  Nat.eqb (length (updateData input)) 0 = negb (field_supplied input).
Proof.
  destruct input as [id [?|] [?|] [?|] [?|] [?|] [?|] [?|]]; reflexivity.
Qed.

(** * The handlers in terms of lookups *)

Lemma createDocument_run (context : Context) (u : User) input now s :
  requireUser context = mret u →
  createDocument input context now s
  = (Return (Some (next_id (documents s),
       {| ownerId := user_id u;
          title := CreateDocumentInput.title input;
          description := CreateDocumentInput.description input;
          subject := CreateDocumentInput.subject input;
          gradeLevel := CreateDocumentInput.gradeLevel input;
          board := CreateDocumentInput.board input;
          sourceType := CreateDocumentInput.sourceType input ?? image_set;
          sourceMeta := CreateDocumentInput.sourceMeta input;
          doc_createdAt := now;
          doc_updatedAt := now |})),
     with_documents
       (<[next_id (documents s) :=
            {| ownerId := user_id u;
               title := CreateDocumentInput.title input;
               description := CreateDocumentInput.description input;
               subject := CreateDocumentInput.subject input;
               gradeLevel := CreateDocumentInput.gradeLevel input;
               board := CreateDocumentInput.board input;
               sourceType := CreateDocumentInput.sourceType input ?? image_set;
               sourceMeta := CreateDocumentInput.sourceMeta input;
               doc_createdAt := now;
               doc_updatedAt := now |}]> (documents s)) s).
Proof. intros Hu. unfold createDocument. rewrite Hu. reflexivity. Qed.

Lemma updateDocument_run (context : Context) (u : User) input now s :
  requireUser context = mret u →
  updateDocument input context now s
  = if owns s (user_id u) (UpdateDocumentInput.id input) then
      match documents s !! UpdateDocumentInput.id input with
      | Some d =>
          if field_supplied input then
            (Return (Some (UpdateDocumentInput.id input,
                           assign_all (updateData input ++ [set_updatedAt now]) d)),
             with_documents
               (<[UpdateDocumentInput.id input :=
                    assign_all (updateData input ++ [set_updatedAt now]) d]>
                  (documents s)) s)
          else (Return (Some (UpdateDocumentInput.id input, d)), s)
      | None => (Throw document_not_found, s)
      end
    else (Throw document_not_found, s).
Proof.
  intros Hu. unfold updateDocument. rewrite Hu. run_action. select_owned.
  rewrite found_owned_by. destruct (owns s _ _) eqn:Ho; [|done].
  destruct (owns_inv _ _ _ Ho) as (d & Hd & Hown). rewrite Hd. simpl.
  rewrite updateData_empty. destruct (field_supplied input); simpl; [|done].
  rewrite andb_false_r.
  rewrite (returning_updated _ _ _ _ (owned_by_pinned _ _)).
  rewrite (update_pinned _ _ _ _ (owned_by_pinned _ _)).
  by rewrite (found_owned _ _ _ _ Hd Hown).
Qed.

Lemma listDocuments_run (context : Context) (u : User) s :
  requireUser context = mret u →
  listDocuments context s
  = (Return (map_to_list (matching (owner_is (user_id u)) (documents s))), s).
Proof. intros Hu. unfold listDocuments. rewrite Hu. reflexivity. Qed.

Lemma getDocumentWithPages_run (context : Context) (u : User) id s :
  requireUser context = mret u →
  getDocumentWithPages id context s
  = if owns s (user_id u) id then
      match documents s !! id with
      | Some d => (Return ((id, d), map_to_list (matching (page_of id) (pages s))), s)
      | None => (Throw document_not_found, s)
      end
    else (Throw document_not_found, s).
Proof.
  intros Hu. unfold getDocumentWithPages. rewrite Hu. run_action. select_owned.
  rewrite found_owned_by. destruct (owns s _ _) eqn:Ho; [|done].
  by destruct (owns_inv _ _ _ Ho) as (d & -> & _).
Qed.

(** [savePage] never meets the store's reference check: the document it
    writes under has just been found. *)
Lemma savePage_run (context : Context) (u : User) input now s :
  requireUser context = mret u →
  savePage input context now s
  = if owns s (user_id u) (SavePageInput.documentId input) then
      if truthy (SavePageInput.id input) then
        match pages s !! (SavePageInput.id input ?? 0) with
        | Some p =>
            if Z.eqb (page_documentId p) (SavePageInput.documentId input) then
              (Return (Some (SavePageInput.id input ?? 0,
                             set_page (page_values input now) p)),
               with_pages (<[SavePageInput.id input ?? 0 :=
                               set_page (page_values input now) p]> (pages s)) s)
            else (Throw page_not_found, s)
        | None => (Throw page_not_found, s)
        end
      else
        (Return (Some (next_id (pages s), page_values input now)),
         with_pages (<[next_id (pages s) := page_values input now]> (pages s)) s)
    else (Throw document_not_found, s).
Proof.
  intros Hu. unfold savePage. rewrite Hu. run_action. select_owned.
  rewrite found_owned_by. destruct (owns s _ _) eqn:Ho; [|done].
  destruct (owns_inv _ _ _ Ho) as (d & Hd & _). rewrite Hd. simpl.
  destruct (truthy (SavePageInput.id input)).
  - rewrite (select_one _ _ _ (key_eq_pinned _)), found_key.
    destruct (pages s !! _) as [p|] eqn:Hp; simpl; [|done].
    destruct (Z.eqb (page_documentId p) (SavePageInput.documentId input)); simpl; [|done].
    rewrite Hd. simpl. rewrite andb_false_r.
    rewrite (returning_updated _ _ _ _ (key_eq_pinned _)).
    rewrite (update_pinned _ _ _ _ (key_eq_pinned _)).
    by rewrite found_key, Hp.
  - by rewrite Hd.
Qed.

(** [deletePage] is refused by the store when a highlight or a job
    references the page. *)
Lemma deletePage_run (context : Context) (u : User) input s :
  requireUser context = mret u →
  deletePage input context s
  = if owns s (user_id u) (DeleteInput.documentId input) then
      match pages s !! DeleteInput.id input with
      | Some p =>
          if Z.eqb (page_documentId p) (DeleteInput.documentId input) then
            if referenced TextbookPages s (DeleteInput.id input)
            then (Throw foreign_key_failed, s)
            else (Return (DeleteInput.id input, p),
                  with_pages (delete (DeleteInput.id input) (pages s)) s)
          else (Throw page_not_found, s)
      | None => (Throw page_not_found, s)
      end
    else (Throw document_not_found, s).
Proof.
  intros Hu. unfold deletePage. rewrite Hu. run_action. select_owned.
  rewrite found_owned_by. destruct (owns s _ _) eqn:Ho; [|done].
  destruct (owns_inv _ _ _ Ho) as (d & -> & _). simpl.
  rewrite (any_row_pinned _ (DeleteInput.id input));
    [|apply and_pinned, page_in_pinned].
  unfold found at 1. unfold page_in at 1.
  destruct (pages s !! DeleteInput.id input) as [p|] eqn:Hp.
  - rewrite Z.eqb_refl. simpl.
    destruct (Z.eqb (page_documentId p) (DeleteInput.documentId input)) eqn:Hdoc; simpl.
    + destruct (any_row _ (highlights s) || any_row _ (jobs s)); simpl; [done|].
      rewrite (returning_one _ _ _ (page_in_pinned _ _)).
      rewrite (delete_pinned _ _ _ (page_in_pinned _ _)).
      by rewrite found_page_in, Hp, Hdoc.
    + rewrite (returning_one _ _ _ (page_in_pinned _ _)).
      rewrite (delete_pinned _ _ _ (page_in_pinned _ _)).
      rewrite found_page_in, Hp, Hdoc. by rewrite with_rows_same.
  - simpl. rewrite (returning_one _ _ _ (page_in_pinned _ _)).
    rewrite (delete_pinned _ _ _ (page_in_pinned _ _)).
    rewrite found_page_in, Hp. by rewrite with_rows_same.
Qed.

Lemma deleteHighlight_run (context : Context) (u : User) input s :
  requireUser context = mret u →
  deleteHighlight input context s
  = if owns s (user_id u) (DeleteInput.documentId input) then
      match highlights s !! DeleteInput.id input with
      | Some h =>
          if Z.eqb (hl_documentId h) (DeleteInput.documentId input)
          then (Return (DeleteInput.id input, h),
                with_highlights (delete (DeleteInput.id input) (highlights s)) s)
          else (Throw highlight_not_found, s)
      | None => (Throw highlight_not_found, s)
      end
    else (Throw document_not_found, s).
Proof.
  intros Hu. unfold deleteHighlight. rewrite Hu. run_action. select_owned.
  rewrite found_owned_by. destruct (owns s _ _) eqn:Ho; [|done].
  destruct (owns_inv _ _ _ Ho) as (d & -> & _). simpl.
  assert (any_row (λ k r, highlight_in (DeleteInput.id input)
                            (DeleteInput.documentId input) k r && false)
            (highlights s) = false) as ->.
  { apply any_row_false. intros k r _. apply andb_false_r. }
  rewrite (returning_one _ _ _ (highlight_in_pinned _ _)).
  rewrite (delete_pinned _ _ _ (highlight_in_pinned _ _)).
  rewrite found_highlight_in.
  destruct (highlights s !! _) as [h|]; [|by rewrite with_rows_same].
  destruct (Z.eqb (hl_documentId h) (DeleteInput.documentId input)); [done|].
  by rewrite with_rows_same.
Qed.

(** [saveHighlight] meets the store's reference check only through
    [pageId]: the document has just been found, and a [pageId] that passed
    the page lookup names a stored page; a [pageId] of 0 skips the lookup and
    is left to the store. *)
Lemma saveHighlight_run (context : Context) (u : User) input now s :
  requireUser context = mret u →
  saveHighlight input context now s
  = if owns s (user_id u) (SaveHighlightInput.documentId input) then
      if page_guard s input then
        if truthy (SaveHighlightInput.id input) then
          match highlights s !! (SaveHighlightInput.id input ?? 0) with
          | Some h =>
              if Z.eqb (hl_documentId h) (SaveHighlightInput.documentId input) then
                if resolves (pages s) (SaveHighlightInput.pageId input) then
                  (Return (Some (SaveHighlightInput.id input ?? 0,
                                 set_highlight (highlight_values input now) h)),
                   with_highlights
                     (<[SaveHighlightInput.id input ?? 0 :=
                          set_highlight (highlight_values input now) h]>
                        (highlights s)) s)
                else (Throw foreign_key_failed, s)
              else (Throw highlight_not_found, s)
          | None => (Throw highlight_not_found, s)
          end
        else
          if resolves (pages s) (SaveHighlightInput.pageId input) then
            (Return (Some (next_id (highlights s), highlight_values input now)),
             with_highlights
               (<[next_id (highlights s) := highlight_values input now]> (highlights s)) s)
          else (Throw foreign_key_failed, s)
      else (Throw page_not_found, s)
    else (Throw document_not_found, s).
Proof.
  intros Hu. unfold saveHighlight, page_guard. rewrite Hu. run_action. select_owned.
  rewrite found_owned_by. destruct (owns s _ _) eqn:Ho; [|done].
  destruct (owns_inv _ _ _ Ho) as (d & Hd & _). rewrite Hd. simpl.
  destruct (truthy (SaveHighlightInput.pageId input)) eqn:Htp.
  - rewrite (select_one _ _ _ (page_in_pinned _ _)), found_page_in.
    destruct (pages s !! _) as [p|] eqn:Hp; [|done].
    destruct (Z.eqb (page_documentId p) (SaveHighlightInput.documentId input)); [|done].
    simpl.
    destruct (truthy (SaveHighlightInput.id input)).
    + rewrite (select_one _ _ _ (key_eq_pinned _)), found_key.
      destruct (highlights s !! _) as [h|] eqn:Hh; simpl; [|done].
      destruct (Z.eqb (hl_documentId h) (SaveHighlightInput.documentId input));
        simpl; [|done].
      rewrite (any_row_pinned _ _ _ (key_eq_pinned _)), found_key, Hh, Hd.
      rewrite (truthy_resolves _ _ Htp), Hp. simpl.
      rewrite (returning_updated _ _ _ _ (key_eq_pinned _)).
      rewrite (update_pinned _ _ _ _ (key_eq_pinned _)).
      by rewrite found_key, Hh.
    + rewrite Hd, (truthy_resolves _ _ Htp), Hp. done.
  - simpl.
    destruct (truthy (SaveHighlightInput.id input)).
    + rewrite (select_one _ _ _ (key_eq_pinned _)), found_key.
      destruct (highlights s !! _) as [h|] eqn:Hh; simpl; [|done].
      destruct (Z.eqb (hl_documentId h) (SaveHighlightInput.documentId input));
        simpl; [|done].
      rewrite (any_row_pinned _ _ _ (key_eq_pinned _)), found_key, Hh, Hd. simpl.
      destruct (resolves (pages s) (SaveHighlightInput.pageId input)); simpl; [|done].
      rewrite (returning_updated _ _ _ _ (key_eq_pinned _)).
      rewrite (update_pinned _ _ _ _ (key_eq_pinned _)).
      by rewrite found_key, Hh.
    + rewrite Hd. simpl.
      by destruct (resolves (pages s) (SaveHighlightInput.pageId input)).
Qed.

(** [createScanJob] hands the store a [documentId] or a [pageId] of 0
    without having looked it up. *)
Lemma createScanJob_run (context : Context) (u : User) input now s :
  requireUser context = mret u →
  createScanJob input context now s
  = if job_document_guard s (user_id u) input then
      if job_page_guard s input then
        if resolves (documents s) (CreateScanJobInput.documentId input)
           && resolves (pages s) (CreateScanJobInput.pageId input)
        then
          (Return (Some (next_id (jobs s), job_values input (user_id u) now)),
           with_jobs (<[next_id (jobs s) := job_values input (user_id u) now]> (jobs s)) s)
        else (Throw foreign_key_failed, s)
      else (Throw page_not_found, s)
    else (Throw document_not_found, s).
Proof.
  intros Hu. unfold createScanJob, job_document_guard, job_page_guard.
  rewrite Hu. run_action.
  destruct (truthy (CreateScanJobInput.documentId input)); simpl.
  - select_owned. rewrite found_owned_by. destruct (owns s _ _) eqn:Ho; [|done].
    destruct (owns_inv _ _ _ Ho) as (d & -> & _). simpl.
    destruct (truthy (CreateScanJobInput.pageId input)); simpl.
    + rewrite (select_one _ _ _ (key_eq_pinned _)), found_key.
      destruct (pages s !! _); simpl; [|done].
      by destruct (_ && _).
    + by destruct (_ && _).
  - destruct (truthy (CreateScanJobInput.pageId input)); simpl.
    + rewrite (select_one _ _ _ (key_eq_pinned _)), found_key.
      destruct (pages s !! _); simpl; [|done].
      by destruct (_ && _).
    + by destruct (_ && _).
Qed.

Lemma listScanJobs_run (context : Context) (u : User) input s :
  requireUser context = mret u →
  listScanJobs input context s
  = (Return
       (List.filter
          (λ job, job_passes
                    (list_to_set
                       (fst <$> map_to_list (matching (owner_is (user_id u)) (documents s))))
                    input job.2)
          (map_to_list (matching (job_of (user_id u)) (jobs s)))), s).
Proof. intros Hu. unfold listScanJobs. rewrite Hu. reflexivity. Qed.

Ltac case_run :=
  repeat match goal with
    | |- context [if ?b then _ else _] => destruct b
    | |- context [match ?x with Some _ => _ | None => _ end] => destruct x
    end.

(** * updateDocument *)

(** C7. For a document owned by the acting user, [updateDocument] with an
    input that holds only the id leaves the store exactly as it was and
    returns the stored record as it is. *)
Theorem updateDocument_only_id_no_write (s : Store) (u : User) (now : Date) (id : Z) (d : Document) :
  documents s !! id = Some d →
  ownerId d = user_id u →
  updateDocument (only_id id) (signed_in u) now s = (Return (Some (id, d)), s).
Proof.
  intros Hd Ho. rewrite (updateDocument_run _ u _ _ _ (requireUser_signed_in u)). simpl.
  by rewrite (owns_intro _ _ _ _ Hd Ho), Hd.
Qed.

Lemma assign_all_fields (input : UpdateDocumentInput.t) (now : Date) (d : Document) :
  let d' := assign_all (updateData input ++ [set_updatedAt now]) d in
  ownerId d' = ownerId d
  ∧ title d' = UpdateDocumentInput.title input ?? title d
  ∧ description d' = overwrite (UpdateDocumentInput.description input) (description d)
  ∧ subject d' = overwrite (UpdateDocumentInput.subject input) (subject d)
  ∧ gradeLevel d' = overwrite (UpdateDocumentInput.gradeLevel input) (gradeLevel d)
  ∧ board d' = overwrite (UpdateDocumentInput.board input) (board d)
  ∧ sourceType d' = UpdateDocumentInput.sourceType input ?? sourceType d
  ∧ sourceMeta d' = overwrite (UpdateDocumentInput.sourceMeta input) (sourceMeta d)
  ∧ doc_createdAt d' = doc_createdAt d
  ∧ doc_updatedAt d' = now.
Proof.
  destruct input as [id [?|] [?|] [?|] [?|] [?|] [?|] [?|]]; repeat split.
Qed.

(** C5. For a document owned by the acting user, [updateDocument] returns
    and stores a record in which every field present in the input holds the
    supplied value and every omitted field, the owner and the creation time
    hold their previous value; when at least one field is supplied the
    record replaces the stored one (no other row changes) with [updatedAt]
    set to the current time, and when none is supplied nothing is written. *)
Theorem updateDocument_patches_supplied_fields
    (s : Store) (u : User) (now : Date) (input : UpdateDocumentInput.t) (d : Document) :
  documents s !! UpdateDocumentInput.id input = Some d →
  ownerId d = user_id u →
  ∃ d' : Document,
    updateDocument input (signed_in u) now s
    = (Return (Some (UpdateDocumentInput.id input, d')),
       if field_supplied input
       then {| documents := <[UpdateDocumentInput.id input := d']> (documents s);
               pages := pages s; highlights := highlights s; jobs := jobs s |}
       else s)
    ∧ ownerId d' = ownerId d
    ∧ title d' = UpdateDocumentInput.title input ?? title d
    ∧ description d' = overwrite (UpdateDocumentInput.description input) (description d)
    ∧ subject d' = overwrite (UpdateDocumentInput.subject input) (subject d)
    ∧ gradeLevel d' = overwrite (UpdateDocumentInput.gradeLevel input) (gradeLevel d)
    ∧ board d' = overwrite (UpdateDocumentInput.board input) (board d)
    ∧ sourceType d' = UpdateDocumentInput.sourceType input ?? sourceType d
    ∧ sourceMeta d' = overwrite (UpdateDocumentInput.sourceMeta input) (sourceMeta d)
    ∧ doc_createdAt d' = doc_createdAt d
    ∧ doc_updatedAt d' = (if field_supplied input then now else doc_updatedAt d).
Proof.
  intros Hd Ho. rewrite (updateDocument_run _ u _ _ _ (requireUser_signed_in u)).
  rewrite (owns_intro _ _ _ _ Hd Ho), Hd.
  destruct (field_supplied input) eqn:Hs.
  - eexists. split; [reflexivity|]. apply assign_all_fields.
  - exists d. split; [reflexivity|].
    destruct input as [id [?|] [?|] [?|] [?|] [?|] [?|] [?|]]; try discriminate Hs.
    repeat split.
Qed.

(** * savePage *)



(** C8. When the acting user owns the supplied document and a non-zero [id]
    names a stored page of another document, [savePage] throws [NOT_FOUND]
    with the message "Page not found." and leaves the store as it was. *)
Theorem savePage_page_of_other_document_not_found
    (s : Store) (u : User) (now : Date) (input : SavePageInput.t)
    (d : Document) (pid : Z) (p : Page) :
  documents s !! SavePageInput.documentId input = Some d →
  ownerId d = user_id u →
  SavePageInput.id input = Some pid →
  pid ≠ 0 →
  pages s !! pid = Some p →
  page_documentId p ≠ SavePageInput.documentId input →
  savePage input (signed_in u) now s
  = (Throw {| code := NOT_FOUND; message := "Page not found." |}, s).
Proof.
  intros Hd Ho Hid Hnz Hp Hdoc.
  rewrite (savePage_run _ u _ _ _ (requireUser_signed_in u)).
  rewrite (owns_intro _ _ _ _ Hd Ho), Hid, (truthy_Some _ Hnz). simpl. rewrite Hp.
  by destruct (Z.eqb_spec (page_documentId p) (SavePageInput.documentId input)).
Qed.

(** Whatever the owner of the supplied document, a signed-in call that names
    a page of another document fails with [NOT_FOUND] and writes nothing. *)
Lemma savePage_page_of_other_document_fails
    (s : Store) (u : User) (now : Date) (input : SavePageInput.t) (pid : Z) (p : Page) :
  SavePageInput.id input = Some pid →
  pid ≠ 0 →
  pages s !! pid = Some p →
  page_documentId p ≠ SavePageInput.documentId input →
  ∃ msg, savePage input (signed_in u) now s
         = (Throw {| code := NOT_FOUND; message := msg |}, s).
Proof.
  intros Hid Hnz Hp Hdoc.
  rewrite (savePage_run _ u _ _ _ (requireUser_signed_in u)).
  destruct (owns s _ _); [|by eexists].
  rewrite Hid, (truthy_Some _ Hnz). simpl. rewrite Hp.
  destruct (Z.eqb_spec (page_documentId p) (SavePageInput.documentId input)); [done|].
  by eexists.
Qed.

(** C10. A [savePage] call whose [id] is 0 is accepted by validation
    exactly when the same call with no [id] is, and runs exactly as that
    call: same outcome and same store, for every caller and store. It never
    throws "Page not found."; and when the acting user owns the document it
    inserts the row built from the input under a fresh key. *)
Theorem savePage_id_zero_inserts
    (s : Store) (context : Context) (now : Date) (input : SavePageInput.t) :
  SavePageInput.id input = Some 0 →
  (∀ is_url, SavePageInput.valid is_url input
             = SavePageInput.valid is_url (without_id input))
  ∧ savePage input context now s = savePage (without_id input) context now s
  ∧ (∀ e, (savePage input context now s).1 = Throw e → e ≠ page_not_found)
  ∧ (∀ u d, context = signed_in u →
       documents s !! SavePageInput.documentId input = Some d →
       ownerId d = user_id u →
       pages s !! next_id (pages s) = None
       ∧ savePage input context now s
         = (Return (Some (next_id (pages s), page_values input now)),
            with_pages (<[next_id (pages s) := page_values input now]> (pages s)) s)).
Proof.
  intros Hid. split; [|split; [|split]].
  - reflexivity.
  - unfold savePage. rewrite Hid. reflexivity.
  - intros e. destruct (requireUser_cases context) as [[u Hu]|Hu].
    + rewrite (savePage_run _ u _ _ _ Hu), Hid. simpl.
      destruct (owns s _ _); simpl; [discriminate|]. intros [= <-]. discriminate.
    + unfold savePage. rewrite (throws_unauthorized _ _ _ Hu). simpl.
      intros [= <-]. discriminate.
  - intros u d -> Hd Ho. split; [apply next_id_fresh|].
    rewrite (savePage_run _ u _ _ _ (requireUser_signed_in u)).
    by rewrite (owns_intro _ _ _ _ Hd Ho), Hid.
Qed.

(** * deletePage and deleteHighlight *)

(** C9. After a [deletePage] call that returned, the same call on the store
    it left throws [NOT_FOUND] "Page not found." and leaves that store as it
    is; likewise [deleteHighlight] with "Highlight not found.". *)
Theorem delete_again_not_found (context : Context) (input : DeleteInput.t) (s : Store) :
  (∀ r s', deletePage input context s = (Return r, s') →
           deletePage input context s' = (Throw page_not_found, s'))
  ∧ (∀ r s', deleteHighlight input context s = (Return r, s') →
             deleteHighlight input context s' = (Throw highlight_not_found, s')).
Proof.
  destruct (requireUser_cases context) as [[u Hu]|Hu].
  - split; intros r s'.
    + rewrite !(deletePage_run _ _ _ _ Hu).
      destruct (owns s _ _) eqn:Ho; [|done].
      destruct (pages s !! _) as [p|]; [|done].
      destruct (Z.eqb _ _); [|done].
      destruct (referenced _ _ _); [done|].
      intros [= <- <-]. unfold owns in *. simpl. rewrite Ho.
      by rewrite lookup_delete_eq.
    + rewrite !(deleteHighlight_run _ _ _ _ Hu).
      destruct (owns s _ _) eqn:Ho; [|done].
      destruct (highlights s !! _) as [h|]; [|done].
      destruct (Z.eqb _ _); [|done].
      intros [= <- <-]. unfold owns in *. simpl. rewrite Ho.
      by rewrite lookup_delete_eq.
  - split; intros r s' H; unfold deletePage, deleteHighlight in H;
      rewrite (throws_unauthorized _ _ _ Hu) in H; discriminate.
Qed.

(** * createScanJob *)

(** A supplied non-zero [documentId] that is not a document of the acting
    user makes [createScanJob] throw [NOT_FOUND] and insert nothing. *)
Lemma createScanJob_document_not_owned
    (s : Store) (u : User) (now : Date) (input : CreateScanJobInput.t) (d : Z) :
  CreateScanJobInput.documentId input = Some d →
  d ≠ 0 →
  owns s (user_id u) d = false →
  createScanJob input (signed_in u) now s = (Throw document_not_found, s).
Proof.
  intros Hd Hnz Ho. rewrite (createScanJob_run _ u _ _ _ (requireUser_signed_in u)).
  unfold job_document_guard. rewrite Hd, (truthy_Some _ Hnz). simpl. by rewrite Ho.
Qed.

(** A supplied non-zero [documentId] of a document of the acting user, with
    no [pageId] or the [pageId] of a stored page, makes [createScanJob]
    insert a job that references the document. *)
Lemma createScanJob_document_owned
    (s : Store) (u : User) (now : Date) (input : CreateScanJobInput.t) (d : Z) (doc : Document) :
  CreateScanJobInput.documentId input = Some d →
  d ≠ 0 →
  documents s !! d = Some doc →
  ownerId doc = user_id u →
  (∀ p, CreateScanJobInput.pageId input = Some p → is_Some (pages s !! p)) →
  createScanJob input (signed_in u) now s
  = (Return (Some (next_id (jobs s), job_values input (user_id u) now)),
     with_jobs (<[next_id (jobs s) := job_values input (user_id u) now]> (jobs s)) s).
Proof.
  intros Hd Hnz Hdoc Ho Hp. rewrite (createScanJob_run _ u _ _ _ (requireUser_signed_in u)).
  unfold job_document_guard, job_page_guard, owns.
  rewrite Hd, (truthy_Some _ Hnz). simpl. rewrite Hdoc, Ho, String.eqb_refl. simpl.
  destruct (CreateScanJobInput.pageId input) as [p|] eqn:Hpage; [|done].
  destruct (Hp p eq_refl) as [pg Hpg]. simpl. rewrite Hpg. simpl.
  by destruct (negb (Z.eqb p 0)).
Qed.

(** When [status] is omitted the inserted job is [pending]. *)
Lemma createScanJob_status_omitted
    (s s' : Store) (context : Context) (now : Date) (input : CreateScanJobInput.t) r :
  CreateScanJobInput.status input = None →
  createScanJob input context now s = (Return r, s') →
  ∃ j, r = Some (next_id (jobs s), j) ∧ status j = pending
       ∧ jobs s' = <[next_id (jobs s) := j]> (jobs s).
Proof.
  intros Hst. destruct (requireUser_cases context) as [[u Hu]|Hu].
  - rewrite (createScanJob_run _ u _ _ _ Hu).
    destruct (job_document_guard _ _ _); [|done].
    destruct (job_page_guard _ _); [|done].
    destruct (_ && _); [|done].
    intros [= <- <-]. eexists. split; [reflexivity|]. simpl. by rewrite Hst.
  - unfold createScanJob. by rewrite (throws_unauthorized _ _ _ Hu).
Qed.

(** C4. [createScanJob] with [documentId] 0: no document has id 0, let alone
    one owned by the caller. The guard [if (input.documentId)] skips the
    ownership lookup for 0, so the handler does not throw [NOT_FOUND]; it
    hands the row to the store, which refuses it because the reference
    names no document. The call ends in the store's error and nothing is
    inserted. *)
Theorem createScanJob_documentId_zero_unchecked :
  documents one_page_store !! 0 = None
  ∧ createScanJob (job_for (Some 0) None) (signed_in bob) 102 one_page_store
    = (Throw foreign_key_failed, one_page_store)
  ∧ code foreign_key_failed ≠ NOT_FOUND
  ∧ createScanJob (job_for (Some 2) None) (signed_in bob) 102 one_page_store
    = (Throw document_not_found, one_page_store).
Proof. repeat split; try (vm_compute; reflexivity). discriminate. Qed.

(** C2. The schema declares "completed", not "pending", as the default of
    [ScanJobs.status]; [createScanJob] with [status] omitted inserts a
    "pending" job all the same, because the handler supplies the value. *)
Theorem ScanJobs_status_default_completed :
  Schema.default_of Schema.ScanJobs "status" = Some (Schema.DText (Status_name completed))
  ∧ Schema.default_of Schema.ScanJobs "status" ≠ Some (Schema.DText (Status_name pending))
  ∧ createScanJob (job_for (Some 1) None) (signed_in alice) 102 one_page_store
    = (Return (Some (1, {| job_documentId := Some 1; job_pageId := None;
                           userId := Some "alice"; jobType := ocr;
                           job_input := None; job_output := None;
                           status := pending; job_createdAt := 102 |})),
       with_jobs {[ 1 := job_values (job_for (Some 1) None) "alice" 102 ]} one_page_store).
Proof. split; [|split]; vm_compute; [reflexivity|discriminate|reflexivity]. Qed.

(** * listScanJobs *)

Lemma status_name_truthy (x : option Status) :
  truthy_str (Status_name <$> x) = present x.
Proof. by destruct x as [[]|]. Qed.

Lemma strict_eq_true (a b : option Z) :
  strict_eq a b = true → ∃ n, a = Some n ∧ b = Some n.
Proof.
  destruct a as [x|], b as [y|]; simpl; try done.
  intros H. exists x. split; [done|]. f_equal. lia.
Qed.

(** What a job that passes the filter of [listScanJobs] satisfies: a
    non-zero [documentId] is in the allow-set, and every filter that is
    supplied and, for the numeric ones, non-zero is matched exactly. *)
Lemma job_passes_sound (ids : gset Z) (input : option ListScanJobsInput.t) (j : ScanJob) :
  job_passes ids input j = true →
  (∀ d, job_documentId j = Some d → d ≠ 0 → d ∈ ids)
  ∧ (∀ f, input ≫= ListScanJobsInput.pageId = Some f → f ≠ 0 → job_pageId j = Some f)
  ∧ (∀ st, input ≫= ListScanJobsInput.status = Some st → status j = st)
  ∧ (∀ f, input ≫= ListScanJobsInput.documentId = Some f → f ≠ 0 →
          job_documentId j = Some f).
Proof.
  unfold job_passes. rewrite status_name_truthy.
  intros H. repeat (apply andb_true_iff in H as [H ?]).
  repeat split.
  - intros d Hd Hnz. rewrite Hd, (truthy_Some _ Hnz) in H. simpl in H.
    by apply bool_decide_eq_true in H.
  - intros f Hf Hnz. rewrite Hf, (truthy_Some _ Hnz) in *.
    destruct (strict_eq_true _ _ ltac:(eassumption)) as (n & -> & [= ->]). done.
  - intros st Hst. rewrite Hst in *. simpl in *.
    eapply bool_decide_eq_true_1. eassumption.
  - intros f Hf Hnz. rewrite Hf, (truthy_Some _ Hnz) in *.
    destruct (strict_eq_true _ _ ltac:(eassumption)) as (n & -> & [= ->]). done.
Qed.

(** Every job [listScanJobs] returns is a stored job of the acting user; if
    its [documentId] is present and not 0 it is the id of a document the user
    owns; and it matches the [status] filter and every non-zero numeric
    filter supplied. *)
Lemma listScanJobs_sound
    (s s' : Store) (context : Context) (input : option ListScanJobsInput.t)
    (l : list (Z * ScanJob)) (k : Z) (j : ScanJob) :
  listScanJobs input context s = (Return l, s') →
  (k, j) ∈ l →
  s' = s
  ∧ ∃ u, requireUser context = mret u
    ∧ jobs s !! k = Some j
    ∧ userId j = Some (user_id u)
    ∧ (∀ d, job_documentId j = Some d → d ≠ 0 →
            ∃ doc, documents s !! d = Some doc ∧ ownerId doc = user_id u)
    ∧ (∀ f, input ≫= ListScanJobsInput.pageId = Some f → f ≠ 0 → job_pageId j = Some f)
    ∧ (∀ st, input ≫= ListScanJobsInput.status = Some st → status j = st)
    ∧ (∀ f, input ≫= ListScanJobsInput.documentId = Some f → f ≠ 0 →
            job_documentId j = Some f).
Proof.
  destruct (requireUser_cases context) as [[u Hu]| Hu].
  - rewrite (listScanJobs_run _ u _ _ Hu).
    intros [= <- <-] Hin. split; [done|]. exists u. split; [done|].
    apply list_elem_of_In, filter_In in Hin as [Hin Hpass]. simpl in Hpass.
    apply list_elem_of_In, elem_of_map_to_list, matching_lookup in Hin as [Hk Hj].
    apply job_passes_sound in Hpass as (Hdoc & Hpage & Hst & Hreq).
    split; [done|]. split.
    { unfold job_of in Hj. destruct (userId j) as [x|]; [|done].
      by apply String.eqb_eq in Hj as ->. }
    split; [|done].
    intros d Hd Hnz. specialize (Hdoc d Hd Hnz).
    apply elem_of_list_to_set, list_elem_of_fmap in Hdoc as ([d' doc] & -> & Hdoc).
    apply elem_of_map_to_list, matching_lookup in Hdoc as [Hdoc Ho].
    exists doc. split; [done|]. by apply String.eqb_eq in Ho.
  - unfold listScanJobs. by rewrite (throws_unauthorized _ _ _ Hu).
Qed.

(** C1. Alice has one job, on page 1. She lists her jobs with the filter
    [pageId] = 0 and the job comes back, although its [pageId] is 1 and not
    the supplied 0: the test [input?.pageId ? .. : true] treats 0 as absent.
    With the filter [pageId] = 2 the job is left out, as it should be. *)
Theorem listScanJobs_pageId_zero_ignored :
  listScanJobs (Some (only_pageId 0)) (signed_in alice) one_job_store
  = (Return [ (1, job_values (job_for (Some 1) (Some 1)) "alice" 102) ], one_job_store)
  ∧ job_pageId (job_values (job_for (Some 1) (Some 1)) "alice" 102) = Some 1
  ∧ ListScanJobsInput.pageId (only_pageId 0) = Some 0
  ∧ listScanJobs (Some (only_pageId 2)) (signed_in alice) one_job_store
    = (Return [], one_job_store).
Proof. repeat split; vm_compute; reflexivity. Qed.

(** * What a call can change *)

Lemma assign_all_keeps (input : UpdateDocumentInput.t) (now : Date) (d : Document) :
  ownerId (assign_all (updateData input ++ [set_updatedAt now]) d) = ownerId d
  ∧ doc_createdAt (assign_all (updateData input ++ [set_updatedAt now]) d)
    = doc_createdAt d.
Proof. pose proof (assign_all_fields input now d) as H. simpl in H. tauto. Qed.

Lemma page_guard_passes (s : Store) (input : SaveHighlightInput.t) :
  page_guard s input = true →
  ∀ p, SaveHighlightInput.pageId input = Some p → p ≠ 0 →
       ∃ pg, pages s !! p = Some pg
             ∧ page_documentId pg = SaveHighlightInput.documentId input.
Proof.
  unfold page_guard. intros Hg p Hp Hnz. rewrite Hp, (truthy_Some _ Hnz) in Hg.
  simpl in Hg. destruct (pages s !! p) as [pg|]; [|done].
  exists pg. split; [done|]. lia.
Qed.

(** Every call either leaves the store alone or makes exactly one of the
    changes of [change], on behalf of the session user. *)
Lemma exec_change (c : Call) (context : Context) (now : Date) (s : Store) :
  exec c context now s = s
  ∨ ∃ u, requireUser context = mret u ∧ change (user_id u) s (exec c context now s).
Proof.
  destruct (requireUser_cases context) as [[u Hu]|Hu].
  - right. exists u. split; [done|].
    destruct c as [i|i| |id|i|i|i|i|i|i]; unfold exec, after.
    + rewrite (createDocument_run _ _ _ _ _ Hu). simpl. by apply document_added.
    + rewrite (updateDocument_run _ _ _ _ _ Hu).
      destruct (owns s _ _) eqn:Ho; [|constructor].
      destruct (owns_inv _ _ _ Ho) as (d & Hd & Hown). rewrite Hd.
      destruct (field_supplied i); [|constructor]. simpl.
      destruct (assign_all_keeps i now d). by eapply document_patched.
    + rewrite (listDocuments_run _ _ _ Hu). constructor.
    + rewrite (getDocumentWithPages_run _ _ _ _ Hu). case_run; constructor.
    + rewrite (savePage_run _ _ _ _ _ Hu).
      destruct (owns s _ _) eqn:Ho; [|constructor].
      destruct (truthy _); [|by apply page_added].
      destruct (pages s !! _) as [p|] eqn:Hp; [|constructor].
      destruct (Z.eqb_spec (page_documentId p) (SavePageInput.documentId i));
        [|constructor].
      simpl. eapply page_replaced; [done| |]; simpl; congruence.
    + rewrite (deletePage_run _ _ _ _ Hu).
      destruct (owns s _ _) eqn:Ho; [|constructor].
      destruct (pages s !! _) as [p|] eqn:Hp; [|constructor].
      destruct (Z.eqb_spec (page_documentId p) (DeleteInput.documentId i));
        [|constructor].
      destruct (referenced TextbookPages s _) eqn:Href; [constructor|].
      simpl. eapply page_deleted; [done| |done]. congruence.
    + rewrite (saveHighlight_run _ _ _ _ _ Hu).
      destruct (owns s _ _) eqn:Ho; [|constructor].
      destruct (page_guard s i) eqn:Hg; [|constructor].
      pose proof (page_guard_passes _ _ Hg) as Hlink.
      destruct (truthy _).
      * destruct (highlights s !! _) as [h|] eqn:Hh; [|constructor].
        destruct (Z.eqb_spec (hl_documentId h) (SaveHighlightInput.documentId i));
          [|constructor].
        destruct (resolves _ _) eqn:Hr; [|constructor].
        simpl. eapply highlight_replaced; [done| | |]; simpl; [congruence..|].
        destruct (SaveHighlightInput.pageId i) as [p|] eqn:Hp; simpl; [|by left].
        right. split; [done|]. intros p' Hp' Hnz. simpl in Hp'. rewrite Hp in Hp'.
        injection Hp' as <-. by apply Hlink.
      * destruct (resolves _ _) eqn:Hr; [|constructor].
        simpl. by apply highlight_added.
    + rewrite (deleteHighlight_run _ _ _ _ Hu).
      destruct (owns s _ _) eqn:Ho; [|constructor].
      destruct (highlights s !! _) as [h|] eqn:Hh; [|constructor].
      destruct (Z.eqb_spec (hl_documentId h) (DeleteInput.documentId i));
        [|constructor].
      simpl. eapply highlight_deleted; [done|]. congruence.
    + rewrite (createScanJob_run _ _ _ _ _ Hu).
      destruct (job_document_guard _ _ _); [|constructor].
      destruct (job_page_guard _ _); [|constructor].
      destruct (resolves (documents s) _) eqn:Hrd; simpl; [|constructor].
      destruct (resolves (pages s) _) eqn:Hrp; simpl; [|constructor].
      by apply job_added.
    + rewrite (listScanJobs_run _ _ _ _ Hu). constructor.
  - left. destruct c; unfold exec, after;
      unfold createDocument, updateDocument, listDocuments, getDocumentWithPages,
        savePage, deletePage, saveHighlight, deleteHighlight, createScanJob, listScanJobs;
      by rewrite (throws_unauthorized _ _ _ Hu).
Qed.

(** * The highlight invariant *)

Lemma names_true (k : Z) (ref : option Z) : names k ref = true ↔ ref = Some k.
Proof.
  destruct ref as [x|]; simpl; [|done]. rewrite Z.eqb_eq. split; congruence.
Qed.

(** A page that nothing references is named by no highlight. *)
Lemma unreferenced_page (s : Store) (k : Z) :
  referenced TextbookPages s k = false →
  (∀ i h, highlights s !! i = Some h → hl_pageId h ≠ Some k)
  ∧ (∀ i j, jobs s !! i = Some j → job_pageId j ≠ Some k).
Proof.
  simpl. intros [Hh Hj]%orb_false_iff. split.
  - intros i h Hi Hk. rewrite any_row_false in Hh. specialize (Hh i h Hi).
    apply names_true in Hk. congruence.
  - intros i j Hi Hk. rewrite any_row_false in Hj. specialize (Hj i j Hi).
    apply names_true in Hk. congruence.
Qed.

(** One change keeps the links of the highlights, in a store where 0 names
    no page. *)
Lemma change_keeps_links (uid : string) (s s' : Store) :
  change uid s s' →
  highlights_linked s → pages s !! 0 = None →
  highlights_linked s' ∧ pages s' !! 0 = None.
Proof.
  intros Hc Hinv Hzero.
  destruct Hc as [|v Hv|k d d' Hk Hown Ho Hcr
                  |v Hv|k p v Hk Hdoc Ho|k p Hk Ho Href
                  |v Hv Hres Hlink|k h v Hk Hdoc Ho Hpage|k h Hk Ho|v Hv Hrd Hrp];
    simpl; try done.
  - split.
    + intros i h Hi q Hq. destruct (Hinv i h Hi q Hq) as (pg & Hpg & Hd).
      exists pg. simpl. split; [|done].
      rewrite lookup_insert_ne; [done|]. intros <-. by rewrite next_id_fresh in Hpg.
    + rewrite lookup_insert_ne; [done|]. pose proof (next_id_positive (pages s)). lia.
  - split.
    + intros i h Hi q Hq. destruct (Hinv i h Hi q Hq) as (pg & Hpg & Hd). simpl.
      destruct (decide (k = q)) as [->|Hne].
      * exists v. rewrite lookup_insert_eq. split; [done|]. congruence.
      * exists pg. by rewrite lookup_insert_ne.
    + rewrite lookup_insert_ne; [done|]. intros ->. congruence.
  - split.
    + intros i h Hi q Hq. destruct (Hinv i h Hi q Hq) as (pg & Hpg & Hd). simpl.
      exists pg. split; [|done]. rewrite lookup_delete_ne; [done|]. intros ->.
      destruct (unreferenced_page _ _ Href) as [Hnone _]. by apply (Hnone i h Hi).
    + by apply lookup_delete_None; right.
  - split; [|done].
    intros i h Hi q Hq. simpl in *.
    destruct (decide (next_id (highlights s) = i)) as [<-|Hne].
    + rewrite lookup_insert_eq in Hi. injection Hi as <-.
      destruct (decide (q = 0)) as [->|Hnz].
      * rewrite Hq in Hres. simpl in Hres. by rewrite Hzero in Hres.
      * by apply Hlink.
    + rewrite lookup_insert_ne in Hi by done. by apply (Hinv i h Hi).
  - split; [|done].
    intros i h' Hi q Hq. simpl in *.
    destruct (decide (k = i)) as [<-|Hne].
    + rewrite lookup_insert_eq in Hi. injection Hi as <-.
      destruct Hpage as [Hsame|[Hres Hlink]].
      * rewrite Hsame in Hq. destruct (Hinv k h Hk q Hq) as (pg & Hpg & Hd).
        exists pg. split; [done|]. congruence.
      * destruct (decide (q = 0)) as [->|Hnz].
        -- rewrite Hq in Hres. simpl in Hres. by rewrite Hzero in Hres.
        -- by apply Hlink.
    + rewrite lookup_insert_ne in Hi by done. by apply (Hinv i h' Hi).
  - split; [|done].
    intros i h' Hi q Hq. simpl in *.
    apply lookup_delete_Some in Hi as [_ Hi]. by apply (Hinv i h' Hi).
Qed.

(** One call keeps the links of the highlights, whoever makes it, in a
    store where 0 names no page. *)
Lemma exec_keeps_links (c : Call) (context : Context) (now : Date) (s : Store) :
  highlights_linked s → pages s !! 0 = None →
  highlights_linked (exec c context now s) ∧ pages (exec c context now s) !! 0 = None.
Proof.
  intros Hinv Hzero.
  destruct (exec_change c context now s) as [->|(u & _ & Hc)]; [done|].
  by eapply change_keeps_links.
Qed.

(** A property that every call keeps holds after any sequence of calls. *)
Lemma exec_all_invariant (P : Store → Prop) :
  (∀ c context now s, P s → P (exec c context now s)) →
  ∀ calls s, P s → P (exec_all calls s).
Proof.
  intros Hstep. unfold exec_all.
  induction calls as [|[[c context] now] calls IH]; intros s Hs; [done|].
  simpl. by apply IH, Hstep.
Qed.

Lemma exec_all_keeps_links (calls : list (Call * Context * Date)) (s : Store) :
  highlights_linked s → pages s !! 0 = None → highlights_linked (exec_all calls s).
Proof.
  intros Hinv Hzero.
  apply (exec_all_invariant (λ s, highlights_linked s ∧ pages s !! 0 = None));
    [|done].
  intros c context now s0 [H1 H2]. by apply exec_keeps_links.
Qed.

Lemma empty_store_linked : highlights_linked empty_store.
Proof. intros k h Hk. simpl in Hk. by rewrite lookup_empty in Hk. Qed.

(** C3. After any sequence of calls of the exposed operations, made by
    anyone with any inputs from the empty store, every stored highlight whose
    [pageId] is set names a stored page whose [documentId] is the
    highlight's own: no reachable store holds a highlight with a dangling
    [pageId] or with the page of another document. *)
Theorem highlights_linked_in_every_reachable_store
    (calls : list (Call * Context * Date)) :
  highlights_linked (exec_all calls empty_store).
Proof. apply exec_all_keeps_links; [apply empty_store_linked|done]. Qed.

(** * Worked instances of the claims *)

(** Alice sends only the id of her document: nothing changes. *)
Lemma updateDocument_only_id_no_write_witness :
  updateDocument (only_id 1) (signed_in alice) 200 one_page_store
  = (Return (Some (1, chapter2_document)), one_page_store).
Proof.
  apply (updateDocument_only_id_no_write one_page_store alice 200 1 chapter2_document);
    reflexivity.
Defined.

(** Alice retitles her document: the title and [updatedAt] change, the
    source type and the creation time stay. *)
Lemma updateDocument_patches_supplied_fields_witness :
  ∃ d', (updateDocument retitle (signed_in alice) 200 one_page_store).1
        = Return (Some (1, d'))
        ∧ title d' = "Chapter 3"
        ∧ sourceType d' = image_set
        ∧ doc_createdAt d' = 100
        ∧ doc_updatedAt d' = 200.
Proof.
  destruct (updateDocument_patches_supplied_fields one_page_store alice 200 retitle
              chapter2_document eq_refl eq_refl)
    as (d' & Hrun & _ & Ht & _ & _ & _ & _ & Hst & _ & Hc & Hu).
  exists d'. rewrite Hrun. repeat split; assumption.
Defined.


(** Alice saves page 1, a page of document 1, under her document 2. *)
Lemma savePage_page_of_other_document_not_found_witness :
  savePage (renumber 2) (signed_in alice) 200 two_documents_store
  = (Throw {| code := NOT_FOUND; message := "Page not found." |}, two_documents_store).
Proof.
  apply (savePage_page_of_other_document_not_found two_documents_store alice 200
           (renumber 2)
           {| ownerId := "alice"; title := "Chapter 2"; description := None;
              subject := None; gradeLevel := None; board := None;
              sourceType := image_set; sourceMeta := None;
              doc_createdAt := 104; doc_updatedAt := 104 |}
           1 newton_row); try reflexivity; simpl; lia.
Defined.

(** Alice deletes page 1 twice. *)
Lemma delete_again_not_found_witness :
  deletePage page_one (signed_in alice) one_page_store
  = (Return (1, newton_row), with_pages ∅ one_page_store)
  ∧ deletePage page_one (signed_in alice) (with_pages ∅ one_page_store)
    = (Throw page_not_found, with_pages ∅ one_page_store).
Proof.
  assert (deletePage page_one (signed_in alice) one_page_store
          = (Return (1, newton_row), with_pages ∅ one_page_store)) as Hfirst
    by (vm_compute; reflexivity).
  split; [exact Hfirst|].
  exact (proj1 (delete_again_not_found (signed_in alice) page_one one_page_store)
           _ _ Hfirst).
Defined.

(** Alice saves a page with [id] 0: a second page is inserted. *)
Lemma savePage_id_zero_inserts_witness :
  savePage (newton_page (Some 0) 1) (signed_in alice) 200 one_page_store
  = (Return (Some (2, page_values (newton_page (Some 0) 1) 200)),
     with_pages (<[2 := page_values (newton_page (Some 0) 1) 200]> (pages one_page_store))
       one_page_store).
Proof.
  destruct (savePage_id_zero_inserts one_page_store (signed_in alice) 200
              (newton_page (Some 0) 1) eq_refl) as (_ & _ & _ & Hins).
  exact (proj2 (Hins alice chapter2_document eq_refl eq_refl eq_refl)).
Defined.

(** * Errors *)

(** X1. With no session user every action throws [UNAUTHORIZED] and leaves
    the store as it was, whatever its input. *)
Theorem no_user_no_access (c : Call) (context : Context) (now : Date) (s : Store) :
  locals context ≫= user = None →
  thrown c context now s = Some unauthorized ∧ exec c context now s = s.
Proof.
  intros Hu%requireUser_no_user.
  destruct c; unfold thrown, exec, after, error_of;
    unfold createDocument, updateDocument, listDocuments, getDocumentWithPages,
      savePage, deletePage, saveHighlight, deleteHighlight, createScanJob, listScanJobs;
    by rewrite (throws_unauthorized _ _ _ Hu).
Qed.

Lemma no_user_no_access_witness :
  thrown (CreateDocument chapter2) anonymous 100 one_page_store = Some unauthorized
  ∧ exec (CreateDocument chapter2) anonymous 100 one_page_store = one_page_store.
Proof.
  apply (no_user_no_access (CreateDocument chapter2) anonymous 100 one_page_store).
  reflexivity.
Defined.

(** X2. A call that ends in an error of the handlers' own, [UNAUTHORIZED]
    or [NOT_FOUND], has written nothing: the store it leaves is the store it
    started from. *)
Theorem action_error_leaves_store
    (c : Call) (context : Context) (now : Date) (s : Store) (e : ActionError) :
  thrown c context now s = Some e →
  code e = UNAUTHORIZED ∨ code e = NOT_FOUND →
  exec c context now s = s.
Proof.
  intros He _. revert He.
  destruct (requireUser_cases context) as [[u Hu]|Hu].
  - destruct c; unfold thrown, exec, after, error_of.
    + by rewrite (createDocument_run _ _ _ _ _ Hu).
    + rewrite (updateDocument_run _ _ _ _ _ Hu). by case_run.
    + by rewrite (listDocuments_run _ _ _ Hu).
    + rewrite (getDocumentWithPages_run _ _ _ _ Hu). by case_run.
    + rewrite (savePage_run _ _ _ _ _ Hu). by case_run.
    + rewrite (deletePage_run _ _ _ _ Hu). by case_run.
    + rewrite (saveHighlight_run _ _ _ _ _ Hu). by case_run.
    + rewrite (deleteHighlight_run _ _ _ _ Hu). by case_run.
    + rewrite (createScanJob_run _ _ _ _ _ Hu). by case_run.
    + by rewrite (listScanJobs_run _ _ _ _ Hu).
  - intros _.
    destruct c; unfold exec, after;
      unfold createDocument, updateDocument, listDocuments, getDocumentWithPages,
        savePage, deletePage, saveHighlight, deleteHighlight, createScanJob, listScanJobs;
      by rewrite (throws_unauthorized _ _ _ Hu).
Qed.

Lemma action_error_leaves_store_witness :
  exec (DeletePage page_one) (signed_in bob) 200 one_page_store = one_page_store.
Proof.
  apply (action_error_leaves_store (DeletePage page_one) (signed_in bob) 200
           one_page_store document_not_found); [reflexivity|].
  right. reflexivity.
Defined.

(** X3. A call scoped to a document that the acting user does not own, or
    that is not stored at all, throws [NOT_FOUND] "Document not found." and
    writes nothing; the two cases give the same result. *)
Theorem document_guard
    (c : Call) (u : User) (now : Date) (s : Store) (d : Z) :
  call_document c = Some d →
  owns s (user_id u) d = false →
  thrown c (signed_in u) now s = Some document_not_found
  ∧ exec c (signed_in u) now s = s.
Proof.
  intros Hc Ho. pose proof (requireUser_signed_in u) as Hu.
  destruct c; simpl in Hc; try discriminate; injection Hc as <-;
    unfold thrown, exec, after, error_of.
  - by rewrite (updateDocument_run _ _ _ _ _ Hu), Ho.
  - by rewrite (getDocumentWithPages_run _ _ _ _ Hu), Ho.
  - by rewrite (savePage_run _ _ _ _ _ Hu), Ho.
  - by rewrite (deletePage_run _ _ _ _ Hu), Ho.
  - by rewrite (saveHighlight_run _ _ _ _ _ Hu), Ho.
  - by rewrite (deleteHighlight_run _ _ _ _ Hu), Ho.
Qed.

Lemma document_guard_witness :
  thrown (SavePage (newton_page None 1)) (signed_in bob) 200 one_page_store
  = Some document_not_found
  ∧ exec (SavePage (newton_page None 1)) (signed_in bob) 200 one_page_store
    = one_page_store.
Proof.
  apply (document_guard (SavePage (newton_page None 1)) bob 200 one_page_store 1);
    reflexivity.
Defined.

(** * What every call preserves *)

(** X4. Scan jobs are append-only: no call changes or removes a stored job. *)
Theorem jobs_append_only
    (c : Call) (context : Context) (now : Date) (s : Store) (k : Z) (j : ScanJob) :
  jobs s !! k = Some j → jobs (exec c context now s) !! k = Some j.
Proof.
  intros Hk. destruct (exec_change c context now s) as [->|(u & _ & Hc)]; [done|].
  destruct Hc; simpl; try done.
  rewrite lookup_insert_ne; [done|]. intros <-. by rewrite next_id_fresh in Hk.
Qed.

Lemma jobs_append_only_witness :
  jobs (exec (CreateScanJob (job_for (Some 1) None)) (signed_in alice) 200 two_jobs_store)
    !! 1
  = Some (job_values (job_for (Some 1) (Some 1)) "alice" 102).
Proof.
  apply (jobs_append_only (CreateScanJob (job_for (Some 1) None)) (signed_in alice) 200
           two_jobs_store 1).
  reflexivity.
Defined.

(** X5. No call removes a document or changes its owner or its creation
    time. *)
Theorem documents_persist
    (c : Call) (context : Context) (now : Date) (s : Store) (k : Z) (d : Document) :
  documents s !! k = Some d →
  ∃ d', documents (exec c context now s) !! k = Some d'
        ∧ ownerId d' = ownerId d
        ∧ doc_createdAt d' = doc_createdAt d.
Proof.
  intros Hk. destruct (exec_change c context now s) as [->|(u & _ & Hc)]; [eauto|].
  destruct Hc as [|v Hv|k' d0 d' Hk' Hown Ho Hcr| | | | | | |]; simpl; eauto.
  - exists d. rewrite lookup_insert_ne; [done|]. intros <-. by rewrite next_id_fresh in Hk.
  - destruct (decide (k' = k)) as [->|Hne].
    + exists d'. rewrite lookup_insert_eq. split; [done|]. split; congruence.
    + exists d. by rewrite lookup_insert_ne.
Qed.

Lemma documents_persist_witness :
  ∃ d', documents (exec (UpdateDocument retitle) (signed_in alice) 200 one_page_store) !! 1
        = Some d'
        ∧ ownerId d' = "alice" ∧ doc_createdAt d' = 100.
Proof.
  apply (documents_persist (UpdateDocument retitle) (signed_in alice) 200 one_page_store
           1 chapter2_document).
  reflexivity.
Defined.

(** X6. No call moves a page or a highlight to another document: a row that
    is still stored after the call has the [documentId] it had before. *)
Theorem documentId_never_changes
    (c : Call) (context : Context) (now : Date) (s : Store) (k : Z) :
  (∀ p p', pages s !! k = Some p → pages (exec c context now s) !! k = Some p' →
           page_documentId p' = page_documentId p)
  ∧ (∀ h h', highlights s !! k = Some h →
             highlights (exec c context now s) !! k = Some h' →
             hl_documentId h' = hl_documentId h).
Proof.
  destruct (exec_change c context now s) as [->|(u & _ & Hc)];
    [split; intros; congruence|].
  destruct Hc as [| | |v Hv|k' p0 v Hk' Hdoc Ho|k' p0 Hk' Ho Href
                  |v Hv Hres Hlink|k' h0 v Hk' Hdoc Ho Hpage|k' h0 Hk' Ho|];
    simpl; split; intros x x' Hx Hx'; try congruence.
  - rewrite lookup_insert_ne in Hx'; [congruence|].
    intros <-. by rewrite next_id_fresh in Hx.
  - destruct (decide (k' = k)) as [->|Hne].
    + rewrite lookup_insert_eq in Hx'. congruence.
    + rewrite lookup_insert_ne in Hx' by done. congruence.
  - apply lookup_delete_Some in Hx' as [_ Hx']. congruence.
  - rewrite lookup_insert_ne in Hx'; [congruence|].
    intros <-. by rewrite next_id_fresh in Hx.
  - destruct (decide (k' = k)) as [->|Hne].
    + rewrite lookup_insert_eq in Hx'. congruence.
    + rewrite lookup_insert_ne in Hx' by done. congruence.
  - apply lookup_delete_Some in Hx' as [_ Hx']. congruence.
Qed.

Lemma documentId_never_changes_witness :
  page_documentId (page_values (renumber 1) 200) = page_documentId newton_row.
Proof.
  exact (proj1 (documentId_never_changes (SavePage (renumber 1)) (signed_in alice) 200
                  one_page_store 1)
           newton_row (set_page (page_values (renumber 1) 200) newton_row)
           eq_refl eq_refl).
Defined.

(** X7. A call touches only rows of the caller: a document of another owner,
    and a page or a highlight of a document the caller does not own, is
    stored after the call exactly as it was before. *)
Theorem other_owners_rows_untouched
    (c : Call) (u : User) (now : Date) (s : Store) (k : Z) :
  (∀ d, documents s !! k = Some d → ownerId d ≠ user_id u →
        documents (exec c (signed_in u) now s) !! k = Some d)
  ∧ (∀ p, pages s !! k = Some p → owns s (user_id u) (page_documentId p) = false →
          pages (exec c (signed_in u) now s) !! k = Some p)
  ∧ (∀ h, highlights s !! k = Some h → owns s (user_id u) (hl_documentId h) = false →
          highlights (exec c (signed_in u) now s) !! k = Some h).
Proof.
  destruct (exec_change c (signed_in u) now s) as [->|(u' & Hu & Hc)]; [done|].
  apply signed_in_user in Hu as <-.
  destruct Hc as [|v Hv|k' d0 d' Hk' Hown Ho Hcr
                  |v Hv|k' p0 v Hk' Hdoc Ho|k' p0 Hk' Ho Href
                  |v Hv Hres Hlink|k' h0 v Hk' Hdoc Ho Hpage|k' h0 Hk' Ho|];
    simpl; repeat split; intros x Hx Hforeign; try done.
  - rewrite lookup_insert_ne; [done|]. intros <-. by rewrite next_id_fresh in Hx.
  - rewrite lookup_insert_ne; [done|]. intros ->. congruence.
  - rewrite lookup_insert_ne; [done|]. intros <-. by rewrite next_id_fresh in Hx.
  - rewrite lookup_insert_ne; [done|]. intros ->. congruence.
  - rewrite lookup_delete_ne; [done|]. intros ->. congruence.
  - rewrite lookup_insert_ne; [done|]. intros <-. by rewrite next_id_fresh in Hx.
  - rewrite lookup_insert_ne; [done|]. intros ->. congruence.
  - rewrite lookup_delete_ne; [done|]. intros ->. congruence.
Qed.

Lemma other_owners_rows_untouched_witness :
  pages (exec (DeletePage page_one) (signed_in bob) 200 one_page_store) !! 1
  = Some newton_row.
Proof.
  exact (proj1 (proj2 (other_owners_rows_untouched (DeletePage page_one) bob 200
                         one_page_store 1))
           newton_row eq_refl eq_refl).
Defined.

Lemma insert_keys_positive {R} (t : gmap Z R) (k : Z) (v : R) :
  (∀ i, is_Some (t !! i) → 0 < i) → 0 < k →
  ∀ i, is_Some (<[k := v]> t !! i) → 0 < i.
Proof.
  intros Ht Hk i Hi. apply lookup_insert_is_Some in Hi as [<-|[_ Hi]]; [done|].
  by apply Ht.
Qed.

Lemma delete_keys_positive {R} (t : gmap Z R) (k : Z) :
  (∀ i, is_Some (t !! i) → 0 < i) →
  ∀ i, is_Some (delete k t !! i) → 0 < i.
Proof.
  intros Ht i Hi. apply lookup_delete_is_Some in Hi as [_ Hi]. by apply Ht.
Qed.

Lemma change_ids_positive (uid : string) (s s' : Store) :
  change uid s s' → ids_positive s → ids_positive s'.
Proof.
  intros Hc (Hd & Hp & Hh & Hj).
  destruct Hc; unfold ids_positive; simpl; repeat split;
    eauto using insert_keys_positive, delete_keys_positive, next_id_positive.
Qed.

Lemma exec_all_ids_positive (calls : list (Call * Context * Date)) (s : Store) :
  ids_positive s → ids_positive (exec_all calls s).
Proof.
  apply exec_all_invariant. clear. intros c context now s Hs.
  destruct (exec_change c context now s) as [->|(u & _ & Hc)]; [done|].
  by eapply change_ids_positive.
Qed.

Lemma empty_store_ids_positive : ids_positive empty_store.
Proof. repeat split; intros k [x Hk]; simpl in Hk; by rewrite lookup_empty in Hk. Qed.

(** X8. In every store the actions can build from the empty one, every row
    of every table has a positive id: 0 never names a stored row. *)
Theorem reachable_ids_positive (calls : list (Call * Context * Date)) :
  ids_positive (exec_all calls empty_store).
Proof. apply exec_all_ids_positive, empty_store_ids_positive. Qed.

(** * References *)

Lemma resolves_inv {R} (t : gmap Z R) (ref : option Z) :
  resolves t ref = true → ∀ k, ref = Some k → is_Some (t !! k).
Proof. intros Hr k ->. simpl in Hr. by destruct (t !! k). Qed.

Lemma owns_stored (s : Store) (uid : string) (d : Z) :
  owns s uid d = true → is_Some (documents s !! d).
Proof. intros (doc & Hd & _)%owns_inv. eauto. Qed.

Lemma insert_keeps_stored {R} (t : gmap Z R) (k i : Z) (v : R) :
  is_Some (t !! i) → is_Some (<[k := v]> t !! i).
Proof. intros Hi. apply lookup_insert_is_Some'. by right. Qed.

(** One change keeps every reference resolved. *)
Lemma change_keeps_references (uid : string) (s s' : Store) :
  change uid s s' → references_hold s → references_hold s'.
Proof.
  intros Hc (Hp & Hh & Hj).
  destruct Hc as [|v Hv|k d d' Hk Hown Ho Hcr
                  |v Hv|k p v Hk Hdoc Ho|k p Hk Ho Href
                  |v Hv Hres Hlink|k h v Hk Hdoc Ho Hpage|k h Hk Ho|v Hv Hrd Hrp];
    unfold references_hold; simpl.
  - done.
  - split; [|split].
    + intros i p Hi. by apply insert_keeps_stored, (Hp i).
    + intros i h Hi. destruct (Hh i h Hi) as [H1 H2].
      split; [by apply insert_keeps_stored|done].
    + intros i j Hi. destruct (Hj i j Hi) as [H1 H2].
      split; [|done]. intros x Hx. by apply insert_keeps_stored, H1.
  - split; [|split].
    + intros i p Hi. by apply insert_keeps_stored, (Hp i).
    + intros i h Hi. destruct (Hh i h Hi) as [H1 H2].
      split; [by apply insert_keeps_stored|done].
    + intros i j Hi. destruct (Hj i j Hi) as [H1 H2].
      split; [|done]. intros x Hx. by apply insert_keeps_stored, H1.
  - split; [|split].
    + intros i p Hi. apply lookup_insert_Some in Hi as [[_ <-]|[_ Hi]].
      * by eapply owns_stored.
      * by apply (Hp i).
    + intros i h Hi. destruct (Hh i h Hi) as [H1 H2].
      split; [done|]. intros x Hx. by apply insert_keeps_stored, H2.
    + intros i j Hi. destruct (Hj i j Hi) as [H1 H2].
      split; [done|]. intros x Hx. by apply insert_keeps_stored, H2.
  - split; [|split].
    + intros i q Hi. apply lookup_insert_Some in Hi as [[_ <-]|[_ Hi]].
      * rewrite Hdoc. by apply (Hp k).
      * by apply (Hp i).
    + intros i h Hi. destruct (Hh i h Hi) as [H1 H2].
      split; [done|]. intros x Hx. by apply insert_keeps_stored, H2.
    + intros i j Hi. destruct (Hj i j Hi) as [H1 H2].
      split; [done|]. intros x Hx. by apply insert_keeps_stored, H2.
  - destruct (unreferenced_page _ _ Href) as [Hnh Hnj]. split; [|split].
    + intros i q Hi. apply lookup_delete_Some in Hi as [_ Hi]. by apply (Hp i).
    + intros i h Hi. destruct (Hh i h Hi) as [H1 H2].
      split; [done|]. intros x Hx. rewrite lookup_delete_ne; [by apply H2|].
      intros ->. by apply (Hnh i h Hi).
    + intros i j Hi. destruct (Hj i j Hi) as [H1 H2].
      split; [done|]. intros x Hx. rewrite lookup_delete_ne; [by apply H2|].
      intros ->. by apply (Hnj i j Hi).
  - split; [done|]. split; [|done].
    intros i h Hi. apply lookup_insert_Some in Hi as [[_ <-]|[_ Hi]].
    + split; [by eapply owns_stored|]. by apply resolves_inv.
    + by apply (Hh i).
  - split; [done|]. split; [|done].
    intros i h' Hi. apply lookup_insert_Some in Hi as [[_ <-]|[_ Hi]].
    + destruct (Hh k h Hk) as [H1 H2]. split; [by rewrite Hdoc|].
      destruct Hpage as [->|[Hres _]]; [done|]. by apply resolves_inv.
    + by apply (Hh i).
  - split; [done|]. split; [|done].
    intros i h' Hi. apply lookup_delete_Some in Hi as [_ Hi]. by apply (Hh i).
  - split; [done|]. split; [done|].
    intros i j Hi. apply lookup_insert_Some in Hi as [[_ <-]|[_ Hi]].
    + split; by apply resolves_inv.
    + by apply (Hj i).
Qed.

Lemma exec_all_keeps_references (calls : list (Call * Context * Date)) (s : Store) :
  references_hold s → references_hold (exec_all calls s).
Proof.
  apply exec_all_invariant. clear. intros c context now s Hs.
  destruct (exec_change c context now s) as [->|(u & _ & Hc)]; [done|].
  by eapply change_keeps_references.
Qed.

Lemma empty_store_references : references_hold empty_store.
Proof.
  repeat split; intros; simpl in *;
    match goal with H : ∅ !! _ = Some _ |- _ => by rewrite lookup_empty in H end.
Qed.

Lemma reachable_references (s : Store) : reachable s → references_hold s.
Proof. intros [calls ->]. apply exec_all_keeps_references, empty_store_references. Qed.

Lemma reachable_linked (s : Store) : reachable s → highlights_linked s.
Proof. intros [calls ->]. by apply exec_all_keeps_links; [apply empty_store_linked|]. Qed.

(** X29. Referential integrity: in every store the actions can build from
    the empty one, the document of every page and of every highlight is
    stored, the page of every highlight that names one is stored, and so are
    the document and the page of every job that names them. *)
Theorem reachable_references_hold (calls : list (Call * Context * Date)) :
  references_hold (exec_all calls empty_store).
Proof. apply exec_all_keeps_references, empty_store_references. Qed.
(** * Documents *)

(** X9. [listDocuments] returns exactly the stored documents whose owner is
    the acting user, and writes nothing. *)
Theorem listDocuments_exact (u : User) (s : Store) :
  ∃ l, listDocuments (signed_in u) s = (Return l, s)
       ∧ ∀ k d, (k, d) ∈ l ↔ documents s !! k = Some d ∧ ownerId d = user_id u.
Proof.
  eexists. split; [apply listDocuments_run, requireUser_signed_in|].
  intros k d. rewrite elem_of_map_to_list, matching_lookup.
  unfold owner_is. by rewrite String.eqb_eq.
Qed.

(** X10. For a document of the acting user, [getDocumentWithPages] returns
    the document with exactly the stored pages whose [documentId] is its id,
    and writes nothing. *)
Theorem getDocumentWithPages_exact (u : User) (s : Store) (id : Z) (d : Document) :
  documents s !! id = Some d →
  ownerId d = user_id u →
  ∃ l, getDocumentWithPages id (signed_in u) s = (Return ((id, d), l), s)
       ∧ ∀ k p, (k, p) ∈ l ↔ pages s !! k = Some p ∧ page_documentId p = id.
Proof.
  intros Hd Ho. eexists. split.
  - rewrite (getDocumentWithPages_run _ u _ _ (requireUser_signed_in u)).
    by rewrite (owns_intro _ _ _ _ Hd Ho), Hd.
  - intros k p. rewrite elem_of_map_to_list, matching_lookup.
    unfold page_of. by rewrite Z.eqb_eq.
Qed.

Lemma getDocumentWithPages_exact_witness :
  ∃ l, getDocumentWithPages 1 (signed_in alice) one_page_store
       = (Return ((1, chapter2_document), l), one_page_store)
       ∧ (1, newton_row) ∈ l.
Proof.
  destruct (getDocumentWithPages_exact alice one_page_store 1 chapter2_document
              eq_refl eq_refl) as (l & Hrun & Hl).
  exists l. split; [exact Hrun|]. apply Hl. split; reflexivity.
Defined.

(** X11. For a signed-in user [createDocument] always returns: the new
    document gets an id that no stored document has, is owned by the caller,
    has source type [image_set] unless one is supplied, and both timestamps
    are the current time; every stored document stays as it is. *)
Theorem createDocument_adds_owned_document
    (u : User) (now : Date) (input : CreateDocumentInput.t) (s : Store) :
  ∃ k d s',
    createDocument input (signed_in u) now s = (Return (Some (k, d)), s')
    ∧ documents s !! k = None
    ∧ documents s' = <[k := d]> (documents s)
    ∧ pages s' = pages s ∧ highlights s' = highlights s ∧ jobs s' = jobs s
    ∧ ownerId d = user_id u
    ∧ title d = CreateDocumentInput.title input
    ∧ sourceType d = CreateDocumentInput.sourceType input ?? image_set
    ∧ doc_createdAt d = now ∧ doc_updatedAt d = now.
Proof.
  eexists _, _, _. split.
  - apply createDocument_run, requireUser_signed_in.
  - split; [apply next_id_fresh|]. repeat split.
Qed.

(** X12. A document just created is listed for its creator, and so is every
    document that was listed before. *)
Theorem created_document_is_listed
    (u : User) (now : Date) (input : CreateDocumentInput.t) (s s' : Store)
    (k : Z) (d : Document) (before after_ : list (Z * Document)) :
  createDocument input (signed_in u) now s = (Return (Some (k, d)), s') →
  listDocuments (signed_in u) s = (Return before, s) →
  listDocuments (signed_in u) s' = (Return after_, s') →
  (k, d) ∈ after_ ∧ ∀ x, x ∈ before → x ∈ after_.
Proof.
  rewrite (createDocument_run _ u _ _ _ (requireUser_signed_in u)).
  rewrite !(listDocuments_run _ u _ (requireUser_signed_in u)).
  intros [= <- <- <-] [= <-] [= <-]. simpl. split.
  - apply elem_of_map_to_list, matching_lookup. rewrite lookup_insert_eq.
    split; [done|]. unfold owner_is. simpl. apply String.eqb_refl.
  - intros [k' d']. rewrite !elem_of_map_to_list, !matching_lookup.
    intros [Hk Ho]. split; [|done].
    rewrite lookup_insert_ne; [done|]. intros <-. by rewrite next_id_fresh in Hk.
Qed.

Lemma created_document_is_listed_witness :
  (2, {| ownerId := "alice"; title := "Chapter 2"; description := None;
         subject := None; gradeLevel := None; board := None;
         sourceType := image_set; sourceMeta := None;
         doc_createdAt := 104; doc_updatedAt := 104 |})
  ∈ [ (2, {| ownerId := "alice"; title := "Chapter 2"; description := None;
             subject := None; gradeLevel := None; board := None;
             sourceType := image_set; sourceMeta := None;
             doc_createdAt := 104; doc_updatedAt := 104 |});
      (1, chapter2_document) ].
Proof.
  refine (proj1 (created_document_is_listed alice 104 chapter2 one_page_store
                   two_documents_store 2 _ [(1, chapter2_document)] _ _ _ _));
    vm_compute; reflexivity.
Defined.

(** * Pages *)

Lemma with_pages_restore (s : Store) (k : Z) (v : Page) :
  pages s !! k = None →
  with_pages (delete k (pages (with_pages (<[k := v]> (pages s)) s)))
    (with_pages (<[k := v]> (pages s)) s) = s.
Proof.
  intros Hk. destruct s as [ds ps hs js]. unfold with_pages. simpl in *.
  by rewrite delete_insert_eq, delete_id.
Qed.

Lemma with_highlights_restore (s : Store) (k : Z) (v : Highlight) :
  highlights s !! k = None →
  with_highlights (delete k (highlights (with_highlights (<[k := v]> (highlights s)) s)))
    (with_highlights (<[k := v]> (highlights s)) s) = s.
Proof.
  intros Hk. destruct s as [ds ps hs js]. unfold with_highlights. simpl in *.
  by rewrite delete_insert_eq, delete_id.
Qed.

(** A page is referenced exactly when a highlight or a job names it. *)
Lemma referenced_page (s : Store) (k : Z) :
  referenced TextbookPages s k = true
  ↔ (∃ i h, highlights s !! i = Some h ∧ hl_pageId h = Some k)
    ∨ (∃ i j, jobs s !! i = Some j ∧ job_pageId j = Some k).
Proof.
  simpl. rewrite orb_true_iff, !any_row_spec. split.
  - intros [(i & h & Hi & Hn)|(i & j & Hi & Hn)]; [left|right];
      exists i; eexists; (split; [done|]); by apply names_true.
  - intros [(i & h & Hi & Hn)|(i & j & Hi & Hn)]; [left|right];
      exists i; eexists; (split; [done|]); by apply names_true.
Qed.

(** Nothing references a page id that is not stored, where the references
    hold. *)
Lemma unstored_page_unreferenced (s : Store) (k : Z) :
  references_hold s → pages s !! k = None → referenced TextbookPages s k = false.
Proof.
  intros (_ & Hh & Hj) Hk. apply not_true_is_false. rewrite referenced_page.
  intros [(i & h & Hi & Hn)|(i & j & Hi & Hn)].
  - destruct (Hh i h Hi) as [_ H]. specialize (H k Hn). rewrite Hk in H. by destruct H.
  - destruct (Hj i j Hi) as [_ H]. specialize (H k Hn). rewrite Hk in H. by destruct H.
Qed.

(** X13. Inserting a page and deleting it again is a round trip: when the
    acting user owns the document and [savePage] is called with no [id] (or
    with [id] 0), the call returns a new page whose [pageNumber] is the
    supplied one or 1, and [deletePage] with the returned id and the same
    document returns that page and leaves the store as it was before the
    insertion. *)
Theorem savePage_then_deletePage
    (u : User) (now : Date) (input : SavePageInput.t) (s : Store) :
  reachable s →
  owns s (user_id u) (SavePageInput.documentId input) = true →
  truthy (SavePageInput.id input) = false →
  ∃ k p s',
    savePage input (signed_in u) now s = (Return (Some (k, p)), s')
    ∧ pages s !! k = None
    ∧ page_documentId p = SavePageInput.documentId input
    ∧ pageNumber p = SavePageInput.pageNumber input ?? 1
    ∧ deletePage (delete_input k (SavePageInput.documentId input)) (signed_in u) s'
      = (Return (k, p), s).
Proof.
  intros Hs%reachable_references Ho Hid. eexists _, _, _. split.
  { rewrite (savePage_run _ u _ _ _ (requireUser_signed_in u)), Ho, Hid. reflexivity. }
  split; [apply next_id_fresh|]. split; [done|]. split; [done|].
  rewrite (deletePage_run _ u _ _ (requireUser_signed_in u)).
  pose proof (unstored_page_unreferenced s _ Hs (next_id_fresh (pages s))) as Href.
  simpl in Href |- *.
  unfold owns in *. simpl. rewrite Ho, lookup_insert_eq. simpl. rewrite Z.eqb_refl, Href.
  f_equal. apply with_pages_restore, next_id_fresh.
Qed.

Lemma savePage_then_deletePage_witness :
  ∃ k p s',
    savePage (newton_page None 1) (signed_in alice) 200 one_page_store
    = (Return (Some (k, p)), s')
    ∧ pageNumber p = 1
    ∧ deletePage (delete_input k 1) (signed_in alice) s' = (Return (k, p), one_page_store).
Proof.
  assert (reachable one_page_store) as Hs.
  { exists [ (CreateDocument chapter2, signed_in alice, 100);
             (SavePage (newton_page None 1), signed_in alice, 101) ].
    reflexivity. }
  destruct (savePage_then_deletePage alice 200 (newton_page None 1) one_page_store
              Hs eq_refl eq_refl) as (k & p & s' & Hsave & _ & _ & Hn & Hdel).
  exists k, p, s'. repeat split; assumption.
Defined.

(** X14. A page that [savePage] returned, inserted or replaced, is among the
    pages [getDocumentWithPages] returns for its document right after. *)
Theorem saved_page_is_listed
    (u : User) (now : Date) (input : SavePageInput.t) (s s' : Store) (k : Z) (p : Page) :
  savePage input (signed_in u) now s = (Return (Some (k, p)), s') →
  ∃ d l, getDocumentWithPages (SavePageInput.documentId input) (signed_in u) s'
         = (Return ((SavePageInput.documentId input, d), l), s')
         ∧ (k, p) ∈ l.
Proof.
  rewrite (savePage_run _ u _ _ _ (requireUser_signed_in u)).
  destruct (owns s _ _) eqn:Ho; [|done].
  destruct (owns_inv _ _ _ Ho) as (d & Hd & Hown).
  assert (∀ t, getDocumentWithPages (SavePageInput.documentId input) (signed_in u)
                 (with_pages t s)
               = (Return ((SavePageInput.documentId input, d),
                          map_to_list (matching (page_of (SavePageInput.documentId input)) t)),
                  with_pages t s)) as Hget.
  { intros t. rewrite (getDocumentWithPages_run _ u _ _ (requireUser_signed_in u)).
    unfold owns in *. simpl. by rewrite Ho, Hd. }
  destruct (truthy _).
  - destruct (pages s !! _) as [p0|]; [|done].
    destruct (Z.eqb _ _); [|done]. intros [= <- <- <-].
    exists d. eexists. split; [apply Hget|].
    apply elem_of_map_to_list, matching_lookup. rewrite lookup_insert_eq.
    split; [done|]. unfold page_of. simpl. apply Z.eqb_refl.
  - intros [= <- <- <-]. exists d. eexists. split; [apply Hget|].
    apply elem_of_map_to_list, matching_lookup. rewrite lookup_insert_eq.
    split; [done|]. unfold page_of. simpl. apply Z.eqb_refl.
Qed.

Lemma saved_page_is_listed_witness :
  ∃ d l, getDocumentWithPages 1 (signed_in alice) one_page_store
         = (Return ((1, d), l), one_page_store)
         ∧ (1, newton_row) ∈ l.
Proof.
  apply (saved_page_is_listed alice 101 (newton_page None 1)
           (after (createDocument chapter2 (signed_in alice) 100) empty_store)
           one_page_store 1 newton_row).
  reflexivity.
Defined.

(** X15. [savePage] never creates a page under an id the caller chooses: a
    non-zero [id] under which no page is stored gives [NOT_FOUND] "Page not
    found." and nothing is written. *)
Theorem savePage_unknown_id_not_found
    (u : User) (now : Date) (input : SavePageInput.t) (s : Store) (pid : Z) :
  owns s (user_id u) (SavePageInput.documentId input) = true →
  SavePageInput.id input = Some pid →
  pid ≠ 0 →
  pages s !! pid = None →
  savePage input (signed_in u) now s = (Throw page_not_found, s).
Proof.
  intros Ho Hid Hnz Hp.
  rewrite (savePage_run _ u _ _ _ (requireUser_signed_in u)), Ho, Hid, (truthy_Some _ Hnz).
  simpl. by rewrite Hp.
Qed.

Lemma savePage_unknown_id_not_found_witness :
  savePage (newton_page (Some 9) 1) (signed_in alice) 200 one_page_store
  = (Throw page_not_found, one_page_store).
Proof.
  apply (savePage_unknown_id_not_found alice 200 (newton_page (Some 9) 1)
           one_page_store 9); try reflexivity. lia.
Defined.

(** X16. [deletePage] of a page that no highlight and no job names removes
    that page and nothing else: the other pages, the documents, the
    highlights and the jobs are stored as before. *)
Theorem deletePage_removes_only_the_page
    (u : User) (input : DeleteInput.t) (s : Store) (p : Page) :
  owns s (user_id u) (DeleteInput.documentId input) = true →
  pages s !! DeleteInput.id input = Some p →
  page_documentId p = DeleteInput.documentId input →
  (∀ i h, highlights s !! i = Some h → hl_pageId h ≠ Some (DeleteInput.id input)) →
  (∀ i j, jobs s !! i = Some j → job_pageId j ≠ Some (DeleteInput.id input)) →
  ∃ s', deletePage input (signed_in u) s = (Return (DeleteInput.id input, p), s')
        ∧ pages s' !! DeleteInput.id input = None
        ∧ (∀ k, k ≠ DeleteInput.id input → pages s' !! k = pages s !! k)
        ∧ highlights s' = highlights s
        ∧ documents s' = documents s
        ∧ jobs s' = jobs s.
Proof.
  intros Ho Hp Hdoc Hnh Hnj.
  assert (referenced TextbookPages s (DeleteInput.id input) = false) as Href.
  { apply not_true_is_false. rewrite referenced_page.
    intros [(i & h & Hi & Hn)|(i & j & Hi & Hn)];
      [by apply (Hnh i h Hi)|by apply (Hnj i j Hi)]. }
  eexists. split.
  { rewrite (deletePage_run _ u _ _ (requireUser_signed_in u)), Ho, Hp, Hdoc, Z.eqb_refl,
      Href. reflexivity. }
  simpl. split; [apply lookup_delete_eq|]. split; [|done].
  intros k Hk. by rewrite lookup_delete_ne.
Qed.

Lemma deletePage_removes_only_the_page_witness :
  ∃ s', deletePage page_one (signed_in alice) one_page_store
        = (Return (1, newton_row), s')
        ∧ pages s' !! 1 = None
        ∧ documents s' = documents one_page_store.
Proof.
  destruct (deletePage_removes_only_the_page alice page_one one_page_store newton_row
              eq_refl eq_refl eq_refl
              ltac:(intros i h Hi; vm_compute in Hi; discriminate)
              ltac:(intros i j Hi; vm_compute in Hi; discriminate))
    as (s' & Hrun & Hgone & _ & _ & Hd & _).
  exists s'. repeat split; assumption.
Defined.

(** X30. [deletePage] of a page that a highlight or a job names is refused
    by the store: the call ends in the store's error, not in [NOT_FOUND],
    and the page, the highlight and the job stay. *)
Theorem deletePage_of_referenced_page_refused
    (u : User) (input : DeleteInput.t) (s : Store) (p : Page) :
  owns s (user_id u) (DeleteInput.documentId input) = true →
  pages s !! DeleteInput.id input = Some p →
  page_documentId p = DeleteInput.documentId input →
  (∃ i h, highlights s !! i = Some h ∧ hl_pageId h = Some (DeleteInput.id input))
  ∨ (∃ i j, jobs s !! i = Some j ∧ job_pageId j = Some (DeleteInput.id input)) →
  deletePage input (signed_in u) s = (Throw foreign_key_failed, s)
  ∧ code foreign_key_failed ≠ NOT_FOUND.
Proof.
  intros Ho Hp Hdoc Href%referenced_page. split; [|done].
  by rewrite (deletePage_run _ u _ _ (requireUser_signed_in u)), Ho, Hp, Hdoc, Z.eqb_refl,
    Href.
Qed.

Lemma deletePage_of_referenced_page_refused_witness :
  deletePage page_one (signed_in alice) highlighted_store
  = (Throw foreign_key_failed, highlighted_store).
Proof.
  refine (proj1 (deletePage_of_referenced_page_refused alice page_one highlighted_store
                   newton_row eq_refl eq_refl eq_refl _)).
  left. exists 1, (highlight_values (fma (Some 1)) 102). split; reflexivity.
Defined.

(** X17. [deletePage] and [deleteHighlight] delete only under the document
    the row belongs to: naming a stored row together with another document,
    even one the caller owns, gives [NOT_FOUND] and nothing is written. *)
Theorem delete_under_other_document_not_found
    (u : User) (input : DeleteInput.t) (s : Store) :
  owns s (user_id u) (DeleteInput.documentId input) = true →
  (∀ p, pages s !! DeleteInput.id input = Some p →
        page_documentId p ≠ DeleteInput.documentId input →
        deletePage input (signed_in u) s = (Throw page_not_found, s))
  ∧ (∀ h, highlights s !! DeleteInput.id input = Some h →
          hl_documentId h ≠ DeleteInput.documentId input →
          deleteHighlight input (signed_in u) s = (Throw highlight_not_found, s)).
Proof.
  intros Ho. split.
  - intros p Hp Hdoc.
    rewrite (deletePage_run _ u _ _ (requireUser_signed_in u)), Ho, Hp.
    by destruct (Z.eqb_spec (page_documentId p) (DeleteInput.documentId input)).
  - intros h Hh Hdoc.
    rewrite (deleteHighlight_run _ u _ _ (requireUser_signed_in u)), Ho, Hh.
    by destruct (Z.eqb_spec (hl_documentId h) (DeleteInput.documentId input)).
Qed.

Lemma delete_under_other_document_not_found_witness :
  deletePage (delete_input 1 2) (signed_in alice) two_documents_store
  = (Throw page_not_found, two_documents_store).
Proof.
  refine (proj1 (delete_under_other_document_not_found alice (delete_input 1 2)
                   two_documents_store eq_refl) newton_row eq_refl _).
  simpl. lia.
Defined.

(** * Highlights *)

(** A [pageId] that passed the page lookup and is not 0 resolves. *)
Lemma page_guard_resolves (s : Store) (input : SaveHighlightInput.t) :
  page_guard s input = true →
  SaveHighlightInput.pageId input ≠ Some 0 →
  resolves (pages s) (SaveHighlightInput.pageId input) = true.
Proof.
  intros Hg Hnz. destruct (SaveHighlightInput.pageId input) as [p|] eqn:Hp; [|done].
  assert (p ≠ 0) as Hp0 by congruence.
  destruct (page_guard_passes _ _ Hg p Hp Hp0) as (pg & Hpg & _). simpl. by rewrite Hpg.
Qed.

(** X18. [saveHighlight] refuses a page that is not a page of the supplied
    document: a non-zero [pageId] under which no page is stored, or a page of
    another document, gives [NOT_FOUND] "Page not found." and nothing is
    written. *)
Theorem saveHighlight_page_of_other_document_not_found
    (u : User) (now : Date) (input : SaveHighlightInput.t) (s : Store) (p : Z) :
  owns s (user_id u) (SaveHighlightInput.documentId input) = true →
  SaveHighlightInput.pageId input = Some p →
  p ≠ 0 →
  (∀ pg, pages s !! p = Some pg →
         page_documentId pg ≠ SaveHighlightInput.documentId input) →
  saveHighlight input (signed_in u) now s = (Throw page_not_found, s).
Proof.
  intros Ho Hp Hnz Hpage.
  rewrite (saveHighlight_run _ u _ _ _ (requireUser_signed_in u)), Ho.
  unfold page_guard. rewrite Hp, (truthy_Some _ Hnz). simpl.
  destruct (pages s !! p) as [pg|]; [|done].
  specialize (Hpage pg eq_refl).
  by destruct (Z.eqb_spec (page_documentId pg) (SaveHighlightInput.documentId input)).
Qed.

Lemma saveHighlight_page_of_other_document_not_found_witness :
  saveHighlight
    {| SaveHighlightInput.id := None; SaveHighlightInput.documentId := 2;
       SaveHighlightInput.pageId := Some 1; SaveHighlightInput.highlightType := None;
       SaveHighlightInput.content := "F=ma"; SaveHighlightInput.meta := None |}
    (signed_in alice) 200 two_documents_store
  = (Throw page_not_found, two_documents_store).
Proof.
  apply (saveHighlight_page_of_other_document_not_found alice 200 _ two_documents_store 1);
    try reflexivity; [lia|].
  intros pg Hpg. vm_compute in Hpg. injection Hpg as <-. simpl. lia.
Defined.

(** X19. When the acting user owns the document, the page lookup passes,
    [pageId] is not 0 and a non-zero [id] names a stored highlight of that
    document, [saveHighlight] overwrites the highlight with the supplied
    values: [content] is the supplied one, [highlightType] the supplied one
    or [key_point], [createdAt] the current time, and [pageId] and [meta]
    are the supplied ones or, where omitted, the stored ones. *)
Theorem saveHighlight_update_overwrites_supplied_fields
    (u : User) (now : Date) (input : SaveHighlightInput.t) (s : Store)
    (hid : Z) (h : Highlight) :
  owns s (user_id u) (SaveHighlightInput.documentId input) = true →
  page_guard s input = true →
  SaveHighlightInput.pageId input ≠ Some 0 →
  SaveHighlightInput.id input = Some hid →
  hid ≠ 0 →
  highlights s !! hid = Some h →
  hl_documentId h = SaveHighlightInput.documentId input →
  saveHighlight input (signed_in u) now s
  = (Return (Some (hid,
       {| hl_documentId := SaveHighlightInput.documentId input;
          hl_pageId := overwrite (SaveHighlightInput.pageId input) (hl_pageId h);
          highlightType := SaveHighlightInput.highlightType input ?? key_point;
          content := SaveHighlightInput.content input;
          meta := overwrite (SaveHighlightInput.meta input) (meta h);
          hl_createdAt := now |})),
     with_highlights
       (<[hid := set_highlight (highlight_values input now) h]> (highlights s)) s).
Proof.
  intros Ho Hg Hpz Hid Hnz Hh Hdoc.
  rewrite (saveHighlight_run _ u _ _ _ (requireUser_signed_in u)), Ho, Hg, Hid,
    (truthy_Some _ Hnz).
  simpl. by rewrite Hh, Hdoc, Z.eqb_refl, (page_guard_resolves _ _ Hg Hpz).
Qed.

Lemma saveHighlight_update_overwrites_supplied_fields_witness :
  saveHighlight
    {| SaveHighlightInput.id := Some 1; SaveHighlightInput.documentId := 1;
       SaveHighlightInput.pageId := None; SaveHighlightInput.highlightType := None;
       SaveHighlightInput.content := "a=F/m"; SaveHighlightInput.meta := None |}
    (signed_in alice) 200 highlighted_store
  = (Return (Some (1, {| hl_documentId := 1; hl_pageId := Some 1;
                         highlightType := key_point; content := "a=F/m";
                         meta := None; hl_createdAt := 200 |})),
     with_highlights
       {[ 1 := {| hl_documentId := 1; hl_pageId := Some 1; highlightType := key_point;
                  content := "a=F/m"; meta := None; hl_createdAt := 200 |} ]}
       highlighted_store).
Proof.
  rewrite (saveHighlight_update_overwrites_supplied_fields alice 200 _
             highlighted_store 1 (highlight_values (fma (Some 1)) 102));
    try reflexivity; [discriminate|lia].
Defined.

(** X20. [saveHighlight] never creates a highlight under an id the caller
    chooses and never takes over a highlight of another document: a non-zero
    [id] under which no highlight of the supplied document is stored gives
    [NOT_FOUND] "Highlight not found." and nothing is written. *)
Theorem saveHighlight_foreign_id_not_found
    (u : User) (now : Date) (input : SaveHighlightInput.t) (s : Store) (hid : Z) :
  owns s (user_id u) (SaveHighlightInput.documentId input) = true →
  page_guard s input = true →
  SaveHighlightInput.id input = Some hid →
  hid ≠ 0 →
  (∀ h, highlights s !! hid = Some h →
        hl_documentId h ≠ SaveHighlightInput.documentId input) →
  saveHighlight input (signed_in u) now s = (Throw highlight_not_found, s).
Proof.
  intros Ho Hg Hid Hnz Hh.
  rewrite (saveHighlight_run _ u _ _ _ (requireUser_signed_in u)), Ho, Hg, Hid,
    (truthy_Some _ Hnz).
  simpl. destruct (highlights s !! hid) as [h|]; [|done].
  specialize (Hh h eq_refl).
  by destruct (Z.eqb_spec (hl_documentId h) (SaveHighlightInput.documentId input)).
Qed.

Lemma saveHighlight_foreign_id_not_found_witness :
  saveHighlight
    {| SaveHighlightInput.id := Some 5; SaveHighlightInput.documentId := 1;
       SaveHighlightInput.pageId := None; SaveHighlightInput.highlightType := None;
       SaveHighlightInput.content := "F=ma"; SaveHighlightInput.meta := None |}
    (signed_in alice) 200 one_page_store
  = (Throw highlight_not_found, one_page_store).
Proof.
  apply (saveHighlight_foreign_id_not_found alice 200 _ one_page_store 5);
    try reflexivity; [lia|].
  intros h Hh. vm_compute in Hh. discriminate.
Defined.

(** X21. Inserting a highlight and deleting it again is a round trip: when
    the acting user owns the document, the page lookup passes, [pageId] is
    not 0 and no [id] (or [id] 0) is given, [saveHighlight] returns a new
    highlight of type [key_point] unless a type is supplied, and
    [deleteHighlight] with the returned id and the same document returns
    that highlight and leaves the store as it was before the insertion. *)
Theorem saveHighlight_then_deleteHighlight
    (u : User) (now : Date) (input : SaveHighlightInput.t) (s : Store) :
  owns s (user_id u) (SaveHighlightInput.documentId input) = true →
  page_guard s input = true →
  SaveHighlightInput.pageId input ≠ Some 0 →
  truthy (SaveHighlightInput.id input) = false →
  ∃ k h s',
    saveHighlight input (signed_in u) now s = (Return (Some (k, h)), s')
    ∧ highlights s !! k = None
    ∧ highlightType h = SaveHighlightInput.highlightType input ?? key_point
    ∧ content h = SaveHighlightInput.content input
    ∧ deleteHighlight (delete_input k (SaveHighlightInput.documentId input))
        (signed_in u) s'
      = (Return (k, h), s).
Proof.
  intros Ho Hg Hpz Hid. eexists _, _, _. split.
  { rewrite (saveHighlight_run _ u _ _ _ (requireUser_signed_in u)), Ho, Hg, Hid,
      (page_guard_resolves _ _ Hg Hpz).
    reflexivity. }
  split; [apply next_id_fresh|]. split; [done|]. split; [done|].
  rewrite (deleteHighlight_run _ u _ _ (requireUser_signed_in u)). simpl.
  unfold owns in *. simpl. rewrite Ho, lookup_insert_eq. simpl. rewrite Z.eqb_refl.
  f_equal. apply with_highlights_restore, next_id_fresh.
Qed.

Lemma saveHighlight_then_deleteHighlight_witness :
  ∃ k h s',
    saveHighlight (fma (Some 1)) (signed_in alice) 102 one_page_store
    = (Return (Some (k, h)), s')
    ∧ highlightType h = formula
    ∧ deleteHighlight (delete_input k 1) (signed_in alice) s'
      = (Return (k, h), one_page_store).
Proof.
  destruct (saveHighlight_then_deleteHighlight alice 102 (fma (Some 1)) one_page_store
              eq_refl eq_refl ltac:(discriminate) eq_refl)
    as (k & h & s' & Hsave & _ & Ht & _ & Hdel).
  exists k, h, s'. repeat split; assumption.
Defined.

(** * Scan jobs *)

(** A [documentId] that passed the document lookup and is not 0 resolves. *)
Lemma job_document_guard_resolves (s : Store) (uid : string) (input : CreateScanJobInput.t) :
  job_document_guard s uid input = true →
  CreateScanJobInput.documentId input ≠ Some 0 →
  resolves (documents s) (CreateScanJobInput.documentId input) = true.
Proof.
  unfold job_document_guard. intros Hg Hnz.
  destruct (CreateScanJobInput.documentId input) as [d|]; [|done].
  assert (d ≠ 0) as Hd by congruence.
  rewrite (truthy_Some _ Hd) in Hg. simpl in Hg |- *.
  by destruct (owns_inv _ _ _ Hg) as (doc & -> & _).
Qed.

(** X22. [createScanJob] refuses a page that is not stored: when the
    document lookup passes, a non-zero [pageId] under which no page is stored
    gives [NOT_FOUND] "Page not found." and no job is inserted. *)
Theorem createScanJob_unknown_page_not_found
    (u : User) (now : Date) (input : CreateScanJobInput.t) (s : Store) (p : Z) :
  job_document_guard s (user_id u) input = true →
  CreateScanJobInput.pageId input = Some p →
  p ≠ 0 →
  pages s !! p = None →
  createScanJob input (signed_in u) now s = (Throw page_not_found, s).
Proof.
  intros Hg Hp Hnz Hpage.
  rewrite (createScanJob_run _ u _ _ _ (requireUser_signed_in u)), Hg.
  unfold job_page_guard. rewrite Hp, (truthy_Some _ Hnz). simpl. by rewrite Hpage.
Qed.

Lemma createScanJob_unknown_page_not_found_witness :
  createScanJob (job_for (Some 1) (Some 9)) (signed_in alice) 200 one_page_store
  = (Throw page_not_found, one_page_store).
Proof.
  apply (createScanJob_unknown_page_not_found alice 200 _ one_page_store 9);
    try reflexivity. lia.
Defined.

(** X23. [createScanJob] does not relate the page to the document: when the
    document lookup passes and [documentId] is not 0, any stored page is
    accepted, whatever document it belongs to and whoever owns that
    document, and the job is inserted with the [documentId] and the [pageId]
    as supplied, stamped with the caller's id. *)
Theorem createScanJob_accepts_any_stored_page
    (u : User) (now : Date) (input : CreateScanJobInput.t) (s : Store) (p : Z) (pg : Page) :
  job_document_guard s (user_id u) input = true →
  CreateScanJobInput.documentId input ≠ Some 0 →
  CreateScanJobInput.pageId input = Some p →
  pages s !! p = Some pg →
  ∃ k j,
    createScanJob input (signed_in u) now s
    = (Return (Some (k, j)), with_jobs (<[k := j]> (jobs s)) s)
    ∧ jobs s !! k = None
    ∧ job_documentId j = CreateScanJobInput.documentId input
    ∧ job_pageId j = Some p
    ∧ userId j = Some (user_id u).
Proof.
  intros Hg Hdz Hp Hpage. eexists _, _. split.
  { rewrite (createScanJob_run _ u _ _ _ (requireUser_signed_in u)), Hg,
      (job_document_guard_resolves _ _ _ Hg Hdz).
    unfold job_page_guard. rewrite Hp. simpl. rewrite Hpage. simpl.
    destruct (negb (Z.eqb p 0)); reflexivity. }
  split; [apply next_id_fresh|]. simpl. by rewrite Hp.
Qed.

Lemma createScanJob_accepts_any_stored_page_witness :
  ∃ k j,
    createScanJob
      {| CreateScanJobInput.documentId := None; CreateScanJobInput.pageId := Some 1;
         CreateScanJobInput.jobType := None; CreateScanJobInput.input := None;
         CreateScanJobInput.output := None; CreateScanJobInput.status := None |}
      (signed_in bob) 200 one_page_store
    = (Return (Some (k, j)), with_jobs (<[k := j]> (jobs one_page_store)) one_page_store)
    ∧ job_pageId j = Some 1
    ∧ userId j = Some "bob"
    ∧ owns one_page_store "bob" (page_documentId newton_row) = false.
Proof.
  destruct (createScanJob_accepts_any_stored_page bob 200
              {| CreateScanJobInput.documentId := None; CreateScanJobInput.pageId := Some 1;
                 CreateScanJobInput.jobType := None; CreateScanJobInput.input := None;
                 CreateScanJobInput.output := None; CreateScanJobInput.status := None |}
              one_page_store 1 newton_row eq_refl ltac:(discriminate) eq_refl eq_refl)
    as (k & j & Hrun & _ & _ & Hp & Hu).
  exists k, j. repeat split; assumption.
Defined.

Lemma allowed_doc_ids (s : Store) (uid : string) (d : Z) :
  d ∈ (list_to_set (fst <$> map_to_list (matching (owner_is uid) (documents s))) : gset Z)
  ↔ owns s uid d = true.
Proof.
  rewrite elem_of_list_to_set, list_elem_of_fmap. unfold owns. split.
  - intros ([d' doc] & -> & Hin).
    apply elem_of_map_to_list, matching_lookup in Hin as [Hd Ho]. simpl.
    by rewrite Hd.
  - destruct (documents s !! d) as [doc|] eqn:Hd; [|done]. intros Ho.
    exists (d, doc). split; [done|]. by apply elem_of_map_to_list, matching_lookup.
Qed.

Lemma strict_eq_refl (n : Z) : strict_eq (Some n) (Some n) = true.
Proof. simpl. apply Z.eqb_refl. Qed.

Lemma job_passes_complete (ids : gset Z) (input : option ListScanJobsInput.t) (j : ScanJob) :
  (∀ d, job_documentId j = Some d → d ≠ 0 → d ∈ ids) →
  (∀ f, input ≫= ListScanJobsInput.pageId = Some f → f ≠ 0 → job_pageId j = Some f) →
  (∀ st, input ≫= ListScanJobsInput.status = Some st → status j = st) →
  (∀ f, input ≫= ListScanJobsInput.documentId = Some f → f ≠ 0 →
        job_documentId j = Some f) →
  job_passes ids input j = true.
Proof.
  intros Hdoc Hpage Hst Hreq. unfold job_passes. rewrite status_name_truthy.
  repeat (apply andb_true_iff; split).
  - destruct (truthy (job_documentId j)) eqn:Ht; [|done].
    apply truthy_inv in Ht as (d & Hd & Hnz). rewrite Hd. simpl.
    apply bool_decide_eq_true_2. by apply Hdoc.
  - destruct (truthy _) eqn:Ht; [|done].
    apply truthy_inv in Ht as (f & Hf & Hnz). rewrite Hf, (Hpage f Hf Hnz).
    apply strict_eq_refl.
  - destruct (input ≫= ListScanJobsInput.status) as [st|]; [|done]. simpl.
    apply bool_decide_eq_true_2. by apply Hst.
  - destruct (truthy _) eqn:Ht; [|done].
    apply truthy_inv in Ht as (f & Hf & Hnz). rewrite Hf, (Hreq f Hf Hnz).
    apply strict_eq_refl.
Qed.

Lemma listScanJobs_member (u : User) (input : option ListScanJobsInput.t) (s : Store)
    (l : list (Z * ScanJob)) (k : Z) (j : ScanJob) :
  listScanJobs input (signed_in u) s = (Return l, s) →
  (k, j) ∈ l ↔ jobs s !! k = Some j ∧ job_visible s (user_id u) input j.
Proof.
  rewrite (listScanJobs_run _ u _ _ (requireUser_signed_in u)). intros [= <-].
  rewrite list_elem_of_In, filter_In, <- list_elem_of_In, elem_of_map_to_list,
    matching_lookup. simpl. unfold job_visible, job_of. split.
  - intros [[Hk Hu] Hpass]. split; [done|].
    apply job_passes_sound in Hpass as (Hdoc & Hpage & Hst & Hreq).
    split. { destruct (userId j) as [x|]; [|done]. by apply String.eqb_eq in Hu as ->. }
    split; [|done]. intros d Hd Hnz. by apply allowed_doc_ids, Hdoc.
  - intros [Hk (Hu & Hdoc & Hpage & Hst & Hreq)]. split.
    + split; [done|]. rewrite Hu. apply String.eqb_refl.
    + apply job_passes_complete; try done.
      intros d Hd Hnz. by apply allowed_doc_ids, Hdoc.
Qed.

(** X24. [listScanJobs] writes nothing and returns exactly the stored jobs
    of the acting user whose [documentId] is absent, 0 or the id of a
    document of the user, and that have the value of every supplied filter;
    a numeric filter that is 0 filters nothing. *)
Theorem listScanJobs_exact (u : User) (input : option ListScanJobsInput.t) (s : Store) :
  ∃ l, listScanJobs input (signed_in u) s = (Return l, s)
       ∧ ∀ k j, (k, j) ∈ l ↔ jobs s !! k = Some j ∧ job_visible s (user_id u) input j.
Proof.
  eexists. split; [apply listScanJobs_run, requireUser_signed_in|].
  intros k j. apply listScanJobs_member.
  apply listScanJobs_run, requireUser_signed_in.
Qed.

(** X25. A job created with no [status] is pending: right after
    [createScanJob] returned it, [listScanJobs] with the filter
    [status = pending] returns the job and with the filter
    [status = completed] does not. *)
Theorem created_job_is_listed_as_pending
    (u : User) (now : Date) (input : CreateScanJobInput.t) (s s' : Store)
    (k : Z) (j : ScanJob) (lp lc : list (Z * ScanJob)) :
  CreateScanJobInput.status input = None →
  createScanJob input (signed_in u) now s = (Return (Some (k, j)), s') →
  listScanJobs (Some (only_status pending)) (signed_in u) s' = (Return lp, s') →
  listScanJobs (Some (only_status completed)) (signed_in u) s' = (Return lc, s') →
  (k, j) ∈ lp ∧ (k, j) ∉ lc.
Proof.
  intros Hst. rewrite (createScanJob_run _ u _ _ _ (requireUser_signed_in u)).
  destruct (job_document_guard _ _ _) eqn:Hg; [|done].
  destruct (job_page_guard _ _); [|done].
  destruct (resolves (documents s) _ && resolves (pages s) _); [|done].
  intros [= <- <- <-] Hlp Hlc.
  rewrite (listScanJobs_member _ _ _ _ _ _ Hlp), (listScanJobs_member _ _ _ _ _ _ Hlc).
  simpl. rewrite lookup_insert_eq. unfold job_visible. simpl. rewrite Hst. simpl. split.
  - split; [done|]. split; [done|]. split.
    + intros d Hd Hnz. unfold job_document_guard in Hg.
      rewrite Hd, (truthy_Some _ Hnz) in Hg. done.
    + repeat split; try done. by intros st [= <-].
  - intros [_ (_ & _ & _ & Hs & _)]. specialize (Hs completed eq_refl). done.
Qed.

Lemma created_job_is_listed_as_pending_witness :
  (1, job_values (job_for (Some 1) None) "alice" 102)
  ∈ [ (1, job_values (job_for (Some 1) None) "alice" 102) ]
  ∧ (1, job_values (job_for (Some 1) None) "alice" 102) ∉ ([] : list (Z * ScanJob)).
Proof.
  refine (created_job_is_listed_as_pending alice 102 (job_for (Some 1) None)
            one_page_store
            (after (createScanJob (job_for (Some 1) None) (signed_in alice) 102)
               one_page_store)
            1 _ _ _ eq_refl _ _ _); vm_compute; reflexivity.
Defined.


(** * Repeated calls *)

Lemma assign_all_absorbs (input : UpdateDocumentInput.t) (now now' : Date) (d : Document) :
  assign_all (updateData input ++ [set_updatedAt now'])
    (assign_all (updateData input ++ [set_updatedAt now]) d)
  = assign_all (updateData input ++ [set_updatedAt now']) d.
Proof.
  destruct input as [id [?|] [?|] [?|] [?|] [?|] [?|] [?|]]; reflexivity.
Qed.

(** X26. A repeated [updateDocument] is absorbed: the same input sent twice,
    by whatever caller, leaves the store that the second call alone would
    have left. *)
Theorem updateDocument_twice
    (input : UpdateDocumentInput.t) (context : Context) (now now' : Date) (s : Store) :
  exec (UpdateDocument input) context now' (exec (UpdateDocument input) context now s)
  = exec (UpdateDocument input) context now' s.
Proof.
  destruct (requireUser_cases context) as [[u Hu]|Hu].
  - unfold exec, after. rewrite !(updateDocument_run _ _ _ _ _ Hu).
    destruct (owns s _ _) eqn:Ho; simpl; [|by rewrite ?Ho].
    destruct (owns_inv _ _ _ Ho) as (d & Hd & Hown). rewrite Hd.
    destruct (field_supplied input) eqn:Hf; simpl; [|by rewrite ?Ho, ?Hd].
    unfold owns. simpl. rewrite lookup_insert_eq.
    destruct (assign_all_keeps input now d) as [-> _].
    rewrite Hown, String.eqb_refl. simpl.
    unfold with_documents. simpl. by rewrite insert_insert_eq, assign_all_absorbs.
  - unfold exec, after, updateDocument. by rewrite !(throws_unauthorized _ _ _ Hu).
Qed.

(** X27. [savePage] without an [id] never reuses a page: two such calls in a
    row, even with the same input, return two different ids and both pages
    are stored afterwards. *)
Theorem savePage_twice_two_pages
    (u : User) (now now' : Date) (input : SavePageInput.t) (s : Store) :
  owns s (user_id u) (SavePageInput.documentId input) = true →
  truthy (SavePageInput.id input) = false →
  ∃ k1 p1 s1 k2 p2 s2,
    savePage input (signed_in u) now s = (Return (Some (k1, p1)), s1)
    ∧ savePage input (signed_in u) now' s1 = (Return (Some (k2, p2)), s2)
    ∧ k1 ≠ k2
    ∧ pages s2 !! k1 = Some p1
    ∧ pages s2 !! k2 = Some p2.
Proof.
  intros Ho Hid. eexists _, _, _, _, _, _. split.
  { rewrite (savePage_run _ u _ _ _ (requireUser_signed_in u)), Ho, Hid. reflexivity. }
  split.
  { rewrite (savePage_run _ u _ _ _ (requireUser_signed_in u)).
    unfold owns in *. simpl. rewrite Ho, Hid. reflexivity. }
  simpl.
  assert (next_id (pages s) ≠ next_id (<[next_id (pages s) := page_values input now]> (pages s)))
    as Hne.
  { intros Heq.
    pose proof (next_id_fresh (<[next_id (pages s) := page_values input now]> (pages s))) as Hf.
    rewrite <- Heq in Hf. by rewrite lookup_insert_eq in Hf. }
  split; [done|]. split.
  - rewrite lookup_insert_ne by done. apply lookup_insert_eq.
  - apply lookup_insert_eq.
Qed.

Lemma savePage_twice_two_pages_witness :
  ∃ k1 p1 s1 k2 p2 s2,
    savePage (newton_page None 1) (signed_in alice) 200 one_page_store
    = (Return (Some (k1, p1)), s1)
    ∧ savePage (newton_page None 1) (signed_in alice) 200 s1 = (Return (Some (k2, p2)), s2)
    ∧ k1 ≠ k2.
Proof.
  destruct (savePage_twice_two_pages alice 200 200 (newton_page None 1) one_page_store
              eq_refl eq_refl) as (k1 & p1 & s1 & k2 & p2 & s2 & H1 & H2 & Hne & _).
  exists k1, p1, s1, k2, p2, s2. repeat split; assumption.
Defined.

(** X28. A highlight that [saveHighlight] returned with a [pageId] other
    than 0 names, in the store the call left, a page of the highlight's own
    document, and that document belongs to the caller. *)
Theorem saved_highlight_is_linked
    (u : User) (now : Date) (input : SaveHighlightInput.t) (s s' : Store)
    (k : Z) (h : Highlight) (p : Z) :
  reachable s →
  saveHighlight input (signed_in u) now s = (Return (Some (k, h)), s') →
  hl_pageId h = Some p →
  p ≠ 0 →
  highlights s' !! k = Some h
  ∧ owns s' (user_id u) (hl_documentId h) = true
  ∧ ∃ pg, pages s' !! p = Some pg ∧ page_documentId pg = hl_documentId h.
Proof.
  intros Hs%reachable_linked.
  rewrite (saveHighlight_run _ u _ _ _ (requireUser_signed_in u)).
  destruct (owns s _ _) eqn:Ho; [|done].
  destruct (page_guard s input) eqn:Hg; [|done].
  pose proof (page_guard_passes _ _ Hg) as Hlink.
  destruct (truthy _).
  - destruct (highlights s !! _) as [h0|] eqn:Hh0; [|done].
    destruct (Z.eqb_spec (hl_documentId h0) (SaveHighlightInput.documentId input))
      as [Hdoc|]; [|done].
    destruct (resolves _ _); [|done].
    intros [= <- <- <-] Hp Hnz. simpl in *.
    split; [apply lookup_insert_eq|]. split; [done|].
    destruct (SaveHighlightInput.pageId input) as [q|] eqn:Hq; simpl in Hp.
    + injection Hp as ->. by apply Hlink.
    + rewrite <- Hdoc. by apply (Hs _ _ Hh0).
  - destruct (resolves _ _); [|done].
    intros [= <- <- <-] Hp Hnz. simpl in *.
    split; [apply lookup_insert_eq|]. split; [done|]. by apply Hlink.
Qed.

Lemma saved_highlight_is_linked_witness :
  highlights (exec_all highlight_a_page empty_store) !! 1
  = Some (highlight_values (fma (Some 1)) 102)
  ∧ owns (exec_all highlight_a_page empty_store) "alice" 1 = true
  ∧ ∃ pg, pages (exec_all highlight_a_page empty_store) !! 1 = Some pg
          ∧ page_documentId pg = 1.
Proof.
  assert (reachable one_page_store) as Hs.
  { exists [ (CreateDocument chapter2, signed_in alice, 100);
             (SavePage (newton_page None 1), signed_in alice, 101) ].
    reflexivity. }
  apply (saved_highlight_is_linked alice 102 (fma (Some 1)) one_page_store
           (exec_all highlight_a_page empty_store) 1
           (highlight_values (fma (Some 1)) 102) 1 Hs); try reflexivity. lia.
Defined.
